(** * eth-go: the state-transition engine and the wire framing, in Rocq

    A shallow embedding of [ethchain/state_transition.go] and of the message
    reader of [ethwire/messaging.go].  Go methods on [*StateTransition]
    become computations in a small state-and-error monad over the session
    record; the ledger ([*State]) is a pair of finite maps; byte slices are
    lists of bytes and Go's run-time panics are an explicit outcome. *)

From Stdlib Require Import ZArith List Lia Bool.
From Stdlib Require Strings.Byte.
From stdpp Require Import base option gmap strings list fin_maps.
Import ListNotations.

Local Open Scope Z_scope.

(* ===================================================================== *)
(** * Package ethwire *)
(* ===================================================================== *)

Module Ethwire.

(** A Go function either returns or panics with a run-time error. *)
Inductive Outcome (A : Type) : Type :=
| Returned (a : A)
| Panicked (why : string).
Arguments Returned {A} a.
Arguments Panicked {A} why.

(** [var MagicToken = []byte{34, 64, 8, 145}] *)
Definition MagicToken : list Byte.byte :=
  [Byte.x22; Byte.x40; Byte.x08; Byte.x91].

(** Go's [s[lo:]]: the upper bound defaults to [len(s)], and the run time
    panics unless [0 <= lo <= len(s)]. *)
Definition slice_from {A} (s : list A) (lo : Z) : Outcome (list A) :=
  if (0 <=? lo) && (lo <=? Z.of_nat (length s))
  then Returned (drop (Z.to_nat lo) s)
  else Panicked "slice bounds out of range".

(** Go's [s[lo:hi]] for a slice whose capacity equals its length. *)
Definition slice {A} (s : list A) (lo hi : Z) : Outcome (list A) :=
  if (0 <=? lo) && (lo <=? hi) && (hi <=? Z.of_nat (length s))
  then Returned (take (Z.to_nat (hi - lo)) (drop (Z.to_nat lo) s))
  else Panicked "slice bounds out of range".

Definition bind {A B} (o : Outcome A) (k : A -> Outcome B) : Outcome B :=
  match o with
  | Returned a => k a
  | Panicked why => Panicked why
  end.

Notation "x <~ c ;; k" := (bind c (fun x => k))
  (at level 100, c at next level, right associativity).

(** Unsigned 64-bit wrap-around and the conversion [int(x)] of a [uint64]
    on a 64-bit platform. *)
Definition uint64 (z : Z) : Z := z mod 2 ^ 64.
Definition int_of_uint64 (z : Z) : Z := if z <? 2 ^ 63 then z else z - 2 ^ 64.

#[global] Instance byte_eq_dec : EqDecision Byte.byte := Strings.Byte.byte_eq_dec.

(** [bytes.Compare(a, b) != 0] on byte slices: the slices differ. *)
Definition bytes_differ (a b : list Byte.byte) : bool :=
  negb (bool_decide (a = b)).

(** Modelled from the spec: [ethutil.BytesToNumber] is not among the
    sources; the writer emits the length with
    [ethutil.NumberToBytes(uint32(len(encoded)), 32)], a 4-byte big-endian
    number, so the reader's number is the big-endian value of the bytes. *)
Definition BytesToNumber (b : list Byte.byte) : Z :=
  uint64 (fold_left (fun acc x => acc * 256 + Z.of_N (Byte.to_N x)) b 0).

(** The [ethutil.Value] decoder is an external collaborator of the reader:
    the type of decoded values, [NewValueFromBytes], [Get(0).Uint()] and
    [SliceFrom(1)]. *)
Class ValueCodec := {
  Value : Type;
  NewValueFromBytes : list Byte.byte -> Value;
  Get0Uint : Value -> Z;
  SliceFrom1 : Value -> Value
}.

Section Reader.
Context `{ValueCodec}.

(** [type Msg struct { Type MsgType; Data *ethutil.Value }], with
    [MsgType] a byte. *)
Record Msg := mkMsg { Type_ : Z; Data : Value }.

(** The four results [(msg, remaining, done, err)] of [ReadMessage]. *)
Record ReadResult := mkRead {
  msg : option Msg;
  remaining : option (list Byte.byte);
  done_ : bool;
  err : option string
}.

Definition message_length_error : string := "message length %d, expected %d".

(** [func ReadMessage(data []byte) (msg *Msg, remaining []byte, done bool, err error)] *)
Definition ReadMessage (data : list Byte.byte) : Outcome ReadResult :=
  if (length data =? 0)%nat then
    Returned (mkRead None None true None)
  else if (length data <=? 8)%nat then
    Returned (mkRead None None false (Some "Invalid message"))
  else
    head4 <~ slice data 0 4 ;;
    if bytes_differ MagicToken head4 then
      Returned (mkRead None None false (Some "MagicToken mismatch. Received %v"))
    else
      len4 <~ slice data 4 8 ;;
      let messageLength := BytesToNumber len4 in
      rest <~ slice_from data (uint64 (8 + messageLength)) ;;
      body <~ slice_from data 8 ;;
      if Z.of_nat (length body) <? int_of_uint64 messageLength then
        Returned (mkRead None None false (Some message_length_error))
      else
        message <~ slice data 8 (uint64 (8 + messageLength)) ;;
        let decoder := NewValueFromBytes message in
        let t := Get0Uint decoder in
        let d := SliceFrom1 decoder in
        Returned (mkRead (Some (mkMsg (t mod 256) d)) (Some rest) false None).

(** The method [readMessage] of [Connection] has the same body as
    [ReadMessage]. *)
Definition readMessage (data : list Byte.byte) : Outcome ReadResult :=
  ReadMessage data.

End Reader.

(** A trivial decoder, for running the reader on concrete frames. *)
Definition raw_codec : ValueCodec := {|
  Value := list Byte.byte;
  NewValueFromBytes := fun b => b;
  Get0Uint := fun b => match b with [] => 0 | x :: _ => Z.of_N (Byte.to_N x) end;
  SliceFrom1 := fun b => drop 1 b
|}.

(** Magic token, declared length 5, one byte of payload. *)
Definition short_frame : list Byte.byte :=
  MagicToken ++ [Byte.x00; Byte.x00; Byte.x00; Byte.x05] ++ [Byte.x01].

(** ** Message types *)

(** [type MsgType byte] and its constants. *)
Definition MsgHandshakeTy : Z := 0.
Definition MsgDiscTy : Z := 1.
Definition MsgPingTy : Z := 2.
Definition MsgPongTy : Z := 3.
Definition MsgGetPeersTy : Z := 4.
Definition MsgPeersTy : Z := 5.
Definition MsgStatusTy : Z := 16.
Definition MsgGetTxsTy : Z := 17.
Definition MsgTxTy : Z := 18.
Definition MsgGetBlockHashesTy : Z := 19.
Definition MsgBlockHashesTy : Z := 20.
Definition MsgGetBlocksTy : Z := 21.
Definition MsgBlockTy : Z := 22.

(** All the declared constants, in the order of the [const] block. *)
Definition declared_types : list Z :=
  [MsgHandshakeTy; MsgDiscTy; MsgPingTy; MsgPongTy; MsgGetPeersTy; MsgPeersTy;
   MsgStatusTy; MsgGetTxsTy; MsgTxTy; MsgGetBlockHashesTy; MsgBlockHashesTy;
   MsgGetBlocksTy; MsgBlockTy].

(** The entries of [var msgTypeToString = map[MsgType]string{...}]. *)
Definition msgTypeToString_entries : list (Z * string) :=
  [(MsgHandshakeTy, "Handshake"); (MsgDiscTy, "Disconnect"); (MsgPingTy, "Ping");
   (MsgPongTy, "Pong"); (MsgGetPeersTy, "Get peers"); (MsgPeersTy, "Peers");
   (MsgTxTy, "Transactions"); (MsgBlockTy, "Blocks"); (MsgGetTxsTy, "Get Txs");
   (MsgGetBlockHashesTy, "Get block hashes"); (MsgBlockHashesTy, "Block hashes");
   (MsgGetBlocksTy, "Get blocks")]%string.

Definition msgTypeToString : gmap Z string := list_to_map msgTypeToString_entries.

(** [func (mt MsgType) String() string]: a Go map yields the zero value,
    the empty string, for a key it does not hold. *)
Definition MsgType_String (mt : Z) : string :=
  match msgTypeToString !! mt with
  | Some name => name
  | None => EmptyString
  end.

(** ** The network connection

    [net.Conn] as the reader and the writers use it.  [reads] lists what the
    successive calls of [Read] deliver; an empty element, or the end of the
    list, is a call that delivers nothing ([n == 0]), as when the read
    deadline passes.  [written] collects the bytes handed to [Write], and
    [broken] is the error [Write] returns, if any. *)
Record NetConn : Type := mkConn {
  reads : list (list Byte.byte);
  written : list Byte.byte;
  broken : option string
}.

Definition conn_Write (pack : list Byte.byte) (c : NetConn) : option string * NetConn :=
  match broken c with
  | Some e => (Some e, c)
  | None => (None, mkConn (reads c) (written c ++ pack) None)
  end.

(** The read loop of [ReadMessages] and [readMessages]: chunks are appended
    to [buff] until a call of [Read] delivers nothing.  The result [err] is
    still [nil] inside the loop, so its first branch is never taken. *)
Fixpoint read_buffer (rs : list (list Byte.byte))
    : list Byte.byte * list (list Byte.byte) :=
  match rs with
  | [] => ([], [])
  | b :: rest =>
      if (length b =? 0)%nat then ([], rest)
      else let '(buff, rest') := read_buffer rest in (b ++ buff, rest')
  end.

(** Modelled from the spec: [ethutil.NumberToBytes] is not among the
    sources; with a [uint32] and 32 bits it yields the four bytes of the
    number, most significant first. *)
Definition byte_of_Z (z : Z) : Byte.byte :=
  match Byte.of_N (Z.to_N (z mod 256)) with
  | Some b => b
  | None => Byte.x00
  end.

Definition uint32 (z : Z) : Z := z mod 2 ^ 32.

Definition NumberToBytes32 (n : Z) : list Byte.byte :=
  [byte_of_Z (n / 2 ^ 24); byte_of_Z (n / 2 ^ 16); byte_of_Z (n / 2 ^ 8); byte_of_Z n].

(** The frame both writers send: magic token, payload length, payload. *)
Definition frame (encoded : list Byte.byte) : list Byte.byte :=
  MagicToken ++ NumberToBytes32 (uint32 (Z.of_nat (length encoded))) ++ encoded.

(** The bytes on the wire after a sequence of payloads has been sent. *)
Definition wire (payloads : list (list Byte.byte)) : list Byte.byte :=
  concat (map frame payloads).

(** A payload the length field can describe and the reader accepts at the
    end of a buffer. *)
Definition sendable (payload : list Byte.byte) : Prop :=
  payload ≠ [] /\ Z.of_nat (length payload) < 2 ^ 32.

(** The payload length a buffer declares in bytes 4 to 7. *)
Definition declared (data : list Byte.byte) : Z :=
  BytesToNumber (take 4 (drop 4 data)).

(** The encoder side of [ethutil.Value]: the bytes of
    [ethutil.NewValue(append([]interface{}{byte(msg.Type)}, msg.Data.Slice()...)).Encode()]. *)
Class ValueEncoder `{ValueCodec} := {
  EncodeMsg : Z -> Value -> list Byte.byte
}.

Section Stream.
Context `{ValueEncoder}.

(** The message [ReadMessage] builds from a payload. *)
Definition decoded (payload : list Byte.byte) : Msg :=
  mkMsg (Get0Uint (NewValueFromBytes payload) mod 256)
    (SliceFrom1 (NewValueFromBytes payload)).

(** What the message loop hands back: the messages and the error. *)
Record Received := mkReceived {
  msgs : list Msg;
  rerr : option string
}.

(** The message loop of [ReadMessages]:
    [for ; done != true; msg, remaining, done, err = ReadMessage(remaining)].
    A panic of [ReadMessage] is caught by the deferred [recover], which sets
    the error and lets the messages gathered so far be returned.  [fuel]
    bounds the number of calls of [ReadMessage]. *)
Fixpoint message_loop (fuel : nat) (data : list Byte.byte) (acc : list Msg)
    : option Received :=
  match fuel with
  | O => None
  | S fuel' =>
      match ReadMessage data with
      | Panicked why =>
          Some (mkReceived acc (Some (String.append "ethwire.ReadMessage error: " why)))
      | Returned r =>
          if done_ r then Some (mkReceived acc (err r))
          else
            message_loop fuel'
              (match remaining r with Some rest => rest | None => [] end)
              (match msg r with Some m => acc ++ [m] | None => acc end)
      end
  end.

(** [func ReadMessages(conn net.Conn) (msgs []*Msg, err error)] *)
Definition ReadMessages (c : NetConn) : option Received * NetConn :=
  let '(buff, rest) := read_buffer (reads c) in
  (message_loop (S (S (length buff))) buff [], mkConn rest (written c) (broken c)).

(** [type Connection struct { conn; nTimeout; pendingMessages }] *)
Record Connection : Type := mkConnection {
  conn : NetConn;
  pendingMessages : list Msg
}.

(** [func New(conn net.Conn) *Connection] *)
Definition New (c : NetConn) : Connection := mkConnection c [].

(** The method [readMessages]: as [ReadMessages], with the messages
    appended to [self.pendingMessages]. *)
Definition readMessages (self : Connection) : option (option string) * Connection :=
  let '(buff, rest) := read_buffer (reads (conn self)) in
  let c' := mkConn rest (written (conn self)) (broken (conn self)) in
  match message_loop (S (S (length buff))) buff (pendingMessages self) with
  | Some r => (Some (rerr r), mkConnection c' (msgs r))
  | None => (None, mkConnection c' (pendingMessages self))
  end.

(** The method [Read]: [ret := self.pendingMessages[0]] panics on an empty
    queue. *)
Definition Read (self : Connection) : option (Outcome (Msg * Connection)) :=
  let after :=
    if (length (pendingMessages self) =? 0)%nat then
      match readMessages self with
      | (Some _, self') => Some self'
      | (None, _) => None
      end
    else Some self in
  match after with
  | None => None
  | Some self' =>
      match pendingMessages self' with
      | [] => Some (Panicked "index out of range")
      | ret :: rest => Some (Returned (ret, mkConnection (conn self') rest))
      end
  end.

(** [func WriteMessage(conn net.Conn, msg *Msg) error] *)
Definition WriteMessage (c : NetConn) (m : Msg) : option string * NetConn :=
  conn_Write (frame (EncodeMsg (Type_ m) (Data m))) c.


End Stream.

(** The encoder matching [raw_codec]: the type byte, then the data. *)
Definition raw_encoder : @ValueEncoder raw_codec :=
  {| EncodeMsg := fun t (d : @Value raw_codec) => byte_of_Z t :: d |}.

(** Sample payloads: a transactions message with one byte of data, and a
    ping. *)
Definition tx_payload : list Byte.byte := [Byte.x12; Byte.x01].


End Ethwire.

(* ===================================================================== *)
(** * Package ethutil: the list container *)
(* ===================================================================== *)

Module Ethutil.
Import Ethwire.

Section ListContainer.
(** Go values held in an [interface{}] and their dynamic types;
    [assignable t u] is reflection's test that a value of type [t] can be
    stored in a slice whose elements have type [u]. *)
Context {Elem Ty : Type} (type_of : Elem -> Ty) (assignable : Ty -> Ty -> bool).

(** What [reflect.ValueOf] finds in the argument of [NewList]. *)
Inductive Dyn : Type :=
| DSlice (elem_ty : Ty) (items : list Elem)
| DOther (v : Elem).

(** [type List struct { list reflect.Value; Length int }] *)
Record List : Type := mkList {
  elem_ty : Ty;
  list : list Elem;
  Length : Z
}.

(** [func NewList(t interface{}) *List] *)
Definition NewList (t : Dyn) : Outcome List :=
  match t with
  | DSlice ty items => Returned (mkList ty items (Z.of_nat (length items)))
  | DOther _ => Panicked "list container initialized with a non-slice type"
  end.

(** [func (self *List) Get(i int) interface{}]: the guard is
    [self.list.Len() > i]; [Index] panics on an index outside the slice. *)
Definition Get (self : List) (i : Z) : Outcome (option Elem) :=
  if i <? Z.of_nat (length (list self)) then
    if i <? 0 then Panicked "reflect: slice index out of range"
    else Returned (list self !! Z.to_nat i)
  else Returned None.

(** [func (self *List) Append(v interface{})] *)
Definition Append (self : List) (v : Elem) : Outcome List :=
  if assignable (type_of v) (elem_ty self) then
    Returned (mkList (elem_ty self) (list self ++ [v])
                (Z.of_nat (length (list self ++ [v]))))
  else Panicked "reflect.Append: value is not assignable to the element type".

(** [func (self *List) Interface() interface{}] *)
Definition Interface (self : List) : Dyn := DSlice (elem_ty self) (list self).

End ListContainer.

(** A sample list of integers, all of one type. *)
Definition sample_list : @List Z unit := mkList tt [1; 2] 2.

End Ethutil.

(* ===================================================================== *)
(** * Package ethchain *)
(* ===================================================================== *)

Module Ethchain.

(** [Nonce] is a [uint64]: [+= 1] wraps around. *)
Definition uint64 (z : Z) : Z := z mod 2 ^ 64.

(** ** Errors

    The Go code returns [error] values built by [NonceError],
    [OutOfGasError] and [fmt.Errorf]; each distinct return site is one
    constructor, carrying the values its message is formatted from. *)
Inductive TransitionError : Type :=
| NonceMismatch (expected got : Z)
| InsufficientGasFunds (req has : Z)
| OutOfGas
| InsufficientValueFunds (req has : Z)
| ContractCreationFailed
| InitializationFailed (cause : string)
| TransitionAborted (cause : string).

(** Modelled from the spec: [NonceError] is not among the sources; the call
    site passes [(tx.Nonce, sender.Nonce)] and the result is
    [NonceMismatch(expected = sender.nonce, got = transaction.nonce)]. *)
Definition NonceError (is_ exp : Z) : TransitionError := NonceMismatch exp is_.

(** Modelled from the spec: [OutOfGasError] is not among the sources. *)
Definition OutOfGasError : TransitionError := OutOfGas.


(** ** Account ledger entry *)
Module StateObject.

(** Modelled from the spec: the declaration of [StateObject] is not among
    the sources.  The fields used by the transition are [Amount], [Nonce],
    [state] (the nested storage), [script] and the initialization script
    returned by [Init()]; the account is keyed by [Address()]. *)
Record t : Type := mk {
  address : string;
  Amount : Z;
  Nonce : Z;
  state : gmap string string;
  script : list Byte.byte;
  initScript : list Byte.byte
}.

Definition SetAddress (addr : string) (c : t) : t :=
  mk addr (Amount c) (Nonce c) (state c) (script c) (initScript c).

Definition SetAmount (amount : Z) (c : t) : t :=
  mk (address c) amount (Nonce c) (state c) (script c) (initScript c).

Definition SetNonce (n : Z) (c : t) : t :=
  mk (address c) (Amount c) n (state c) (script c) (initScript c).

Definition SetScript (code : list Byte.byte) (c : t) : t :=
  mk (address c) (Amount c) (Nonce c) (state c) code (initScript c).

(** Modelled from the spec: [credit(amount)] increases the balance
    unconditionally. *)
Definition AddAmount (amount : Z) (c : t) : t := SetAmount (Amount c + amount) c.

(** Modelled from the spec: [SubAmount] decreases the balance; the callers
    in the transition compare the balance with the amount beforehand. *)
Definition SubAmount (amount : Z) (c : t) : t := SetAmount (Amount c - amount) c.

(** Modelled from the spec: the proposer is credited [gas * price]; the
    credit never fails. *)
Definition BuyGas (gas price : Z) (c : t) : option TransitionError * t :=
  (None, AddAmount (gas * price) c).

Definition Init (c : t) : list Byte.byte := initScript c.

(** Modelled from the spec: a freshly-initialized zero-value account. *)
Definition NewAccount (addr : string) : t := mk addr 0 0 ∅ [] [].

End StateObject.

(** ** Ledger store *)
Module State.

(** [states] is the map written by [MakeStateObject]
    ([state.states[string(addr)] = contract.state]); [trie] holds the
    account entries behind [GetAccount] and [UpdateStateObject]. *)
Record t : Type := mk {
  trie : gmap string StateObject.t;
  states : gmap string (gmap string string)
}.

(** Modelled from the spec: [get(address)] returns the stored account, or a
    freshly-initialized zero-value account if absent; never an error.  Each
    call yields an object of its own, carrying the address it was asked
    for. *)
Definition GetAccount (s : t) (addr : string) : StateObject.t :=
  match trie s !! addr with
  | Some o => StateObject.SetAddress addr o
  | None => StateObject.NewAccount addr
  end.

(** Modelled from the spec: [update(account)] writes the account under its
    address. *)
Definition UpdateStateObject (object : StateObject.t) (s : t) : t :=
  mk (<[StateObject.address object := object]> (trie s)) (states s).

Definition set_states (addr : string) (st : gmap string string) (s : t) : t :=
  mk (trie s) (<[addr := st]> (states s)).

End State.

(** ** Collaborators whose code or values lie outside the transition *)

(** The gas schedule: the protocol constants [GasTx] and [GasData]. *)
Class GasSchedule := { GasTx : Z; GasData : Z }.

(** Modelled from the spec: the creation address is a value
    deterministically computable from [(sender, nonce)]. *)
Class AddressScheme := { creation_address : string -> Z -> string }.

(** ** Transaction value object *)
Module Transaction.

(** Modelled from the spec: the declaration of [Transaction] is not among
    the sources.  [from] is the sender recovered from the signature. *)
Record t : Type := mk {
  Nonce : Z;
  Recipient : string;
  Value : Z;
  Gas : Z;
  GasPrice : Z;
  Data : list Byte.byte;
  from : string
}.

Definition Sender (tx : t) : string := from tx.

(** Modelled from the spec: [gasLimit * gasPrice]. *)
Definition GasValue (tx : t) : Z := Gas tx * GasPrice tx.

(** Modelled from the spec: an absent (empty) recipient requests the
    creation of a contract. *)
Definition CreatesContract (tx : t) : bool := (String.length (Recipient tx) =? 0)%nat.

Definition CreationAddress `{AddressScheme} (tx : t) : string :=
  creation_address (Sender tx) (Nonce tx).

End Transaction.

(** Block context, forwarded read-only to the script engine. *)
Record Block : Type := mkBlock {
  Number : Z;
  PrevHash : list Byte.byte;
  Coinbase_ : string;
  Time : Z;
  Difficulty : Z
}.

Record RuntimeVars : Type := mkRuntimeVars {
  Origin : string;
  BlockNumber : Z;
  rvPrevHash : list Byte.byte;
  rvCoinbase : string;
  rvTime : Z;
  Diff : Z;
  rvValue : Z
}.

(** Modelled from the spec: the script engine is a black box,
    [run(code, context, gasBudget, env) -> (resultCode, error?)].  The
    arguments are those of [NewClosure], [NewVm] and [closure.Call]. *)
Class ScriptEngine := {
  Call : StateObject.t -> StateObject.t -> list Byte.byte -> State.t -> Z -> Z ->
         RuntimeVars -> list Byte.byte -> list Byte.byte * option string
}.

(** Modelled from the spec: instantiating the new account can be rejected
    (address collision, store rejection). *)
Class ContractFactory := { rejected : Transaction.t -> State.t -> bool }.

(** Modelled from the spec: [MakeContract] is not among the sources.  It
    instantiates a new account at the creation address with zero balance,
    nonce and code, carrying the payload as its initialization script, and
    yields [nil] when the instantiation is rejected. *)
Definition MakeContract `{AddressScheme} `{ContractFactory}
    (tx : Transaction.t) (state : State.t) : option StateObject.t :=
  if Transaction.CreatesContract tx && negb (rejected tx state) then
    Some (StateObject.mk (Transaction.CreationAddress tx) 0 0 ∅ [] (Transaction.Data tx))
  else None.

(** ** The transition session *)
Record StateTransition : Type := mkST {
  coinbase : string;
  tx : Transaction.t;
  gas : Z;
  state : State.t;
  block : Block;
  cb : option StateObject.t;
  rec : option StateObject.t;
  sen : option StateObject.t
}.

(** [NewStateTransition] *)
Definition NewStateTransition (coinbase : string) (tx : Transaction.t)
    (state : State.t) (block : Block) : StateTransition :=
  mkST coinbase tx 0 state block None None None.

Definition set_gas (g : Z) (s : StateTransition) : StateTransition :=
  mkST (coinbase s) (tx s) g (state s) (block s) (cb s) (rec s) (sen s).
Definition set_state (st : State.t) (s : StateTransition) : StateTransition :=
  mkST (coinbase s) (tx s) (gas s) st (block s) (cb s) (rec s) (sen s).
Definition set_cb (o : option StateObject.t) (s : StateTransition) : StateTransition :=
  mkST (coinbase s) (tx s) (gas s) (state s) (block s) o (rec s) (sen s).
Definition set_rec (o : option StateObject.t) (s : StateTransition) : StateTransition :=
  mkST (coinbase s) (tx s) (gas s) (state s) (block s) (cb s) o (sen s).
Definition set_sen (o : option StateObject.t) (s : StateTransition) : StateTransition :=
  mkST (coinbase s) (tx s) (gas s) (state s) (block s) (cb s) (rec s) o.

(** ** Methods as computations on the session

    A method of [*StateTransition] reads and mutates the session and either
    returns a value or an error; mutations made before an error stay. *)
Definition M (A : Type) : Type :=
  StateTransition -> (TransitionError + A) * StateTransition.

Definition ret {A} (a : A) : M A := fun s => (inr a, s).
Definition fail {A} (e : TransitionError) : M A := fun s => (inl e, s).
Definition bind {A B} (m : M A) (k : A -> M B) : M B :=
  fun s => match m s with
           | (inl e, s') => (inl e, s')
           | (inr a, s') => k a s'
           end.
Definition get : M StateTransition := fun s => (inr s, s).
Definition modify (f : StateTransition -> StateTransition) : M unit :=
  fun s => (inr tt, f s).

Notation "x <- c ;; k" := (bind c (fun x => k))
  (at level 100, c at next level, right associativity).
Notation "c ;;; k" := (bind c (fun _ => k))
  (at level 100, right associativity).

Section Methods.
Context `{GasSchedule} `{AddressScheme} `{ScriptEngine} `{ContractFactory}.

(** [Coinbase()], [Sender()] and [Receiver()] fetch an account from the
    ledger on first use and cache the object in the session. *)
Definition Coinbase : M StateObject.t := fun self =>
  match cb self with
  | Some o => (inr o, self)
  | None =>
      let o := State.GetAccount (state self) (coinbase self) in
      (inr o, set_cb (Some o) self)
  end.

Definition Sender : M StateObject.t := fun self =>
  match sen self with
  | Some o => (inr o, self)
  | None =>
      let o := State.GetAccount (state self) (Transaction.Sender (tx self)) in
      (inr o, set_sen (Some o) self)
  end.

Definition Receiver : M (option StateObject.t) := fun self =>
  if Transaction.CreatesContract (tx self) then (inr None, self)
  else match rec self with
       | Some o => (inr (Some o), self)
       | None =>
           let o := State.GetAccount (state self) (Transaction.Recipient (tx self)) in
           (inr (Some o), set_rec (Some o) self)
       end.

(** [MakeStateObject(state, tx)]: on success the contract's nested state is
    registered in [state.states] under the creation address. *)
Definition MakeStateObject (tx : Transaction.t) : M (option StateObject.t) :=
  fun self =>
    match MakeContract tx (state self) with
    | Some contract =>
        (inr (Some contract),
         set_state (State.set_states (Transaction.CreationAddress tx)
                      (StateObject.state contract) (state self)) self)
    | None => (inr None, self)
    end.

(** [UseGas(amount)] *)
Definition UseGas (amount : Z) : M unit := fun self =>
  if gas self <? amount then (inl OutOfGasError, self)
  else (inr tt, set_gas (gas self - amount) self).

(** [AddGas(amount)] *)
Definition AddGas (amount : Z) : M unit :=
  modify (fun self => set_gas (gas self + amount) self).

(** [BuyGas()].  The pointer [sender] is the cached [self.sen] and
    [coinbase] the cached [self.cb]: a mutation through either is a
    mutation of the cached object. *)
Definition BuyGas : M unit :=
  sender <- Sender ;;
  self <- get ;;
  if StateObject.Amount sender <? Transaction.GasValue (tx self) then
    fail (InsufficientGasFunds (Transaction.GasValue (tx self))
            (Transaction.Value (tx self)))
  else
    coinbase <- Coinbase ;;
    let '(err, coinbase') :=
      StateObject.BuyGas (Transaction.Gas (tx self))
        (Transaction.GasPrice (tx self)) coinbase in
    modify (set_cb (Some coinbase')) ;;;
    match err with
    | Some e => fail e
    | None =>
        modify (fun s => set_state (State.UpdateStateObject coinbase' (state s)) s) ;;;
        AddGas (Transaction.Gas (tx self)) ;;;
        modify (set_sen
                  (Some (StateObject.SubAmount (Transaction.GasValue (tx self)) sender)))
    end.

(** [transferValue(sender, receiver)].  [sender] is the cached [self.sen];
    [receiver] is the cached [self.rec] unless the transaction creates a
    contract, in which case it is the object made by [MakeStateObject].  The
    updated receiver is returned. *)
Definition transferValue (sender receiver : StateObject.t) : M StateObject.t :=
  self <- get ;;
  if StateObject.Amount sender <? Transaction.Value (tx self) then
    fail (InsufficientValueFunds (Transaction.Value (tx self))
            (StateObject.Amount sender))
  else
    let receiver' := StateObject.AddAmount (Transaction.Value (tx self)) receiver in
    modify (set_sen
              (Some (StateObject.SubAmount (Transaction.Value (tx self)) sender))) ;;;
    (if Transaction.CreatesContract (tx self) then ret tt
     else modify (set_rec (Some receiver'))) ;;;
    ret receiver'.

(** [Eval(script, context)] *)
Definition Eval (script : list Byte.byte) (context : StateObject.t)
    : M (list Byte.byte * option string) :=
  self <- get ;;
  initiator <- Sender ;;
  let vars := mkRuntimeVars (StateObject.address initiator)
                (Number (block self)) (PrevHash (block self))
                (Coinbase_ (block self)) (Time (block self))
                (Difficulty (block self)) (Transaction.Value (tx self)) in
  ret (Call initiator context script (state self) (gas self)
         (Transaction.GasPrice (tx self)) vars (Transaction.Data (tx self))).

(** [TransitionState()].  The deferred [recover] turns a run-time panic into
    an error ([TransitionAborted]); with the collaborators total and
    addresses of at least the four bytes that [transferValue] logs, no step
    panics, so no path below ends that way.  The two writes to standard
    output and the log are not modelled. *)
Definition TransitionState : M unit :=
  self0 <- get ;;
  let tx := tx self0 in
  sender <- Sender ;;
  if negb (StateObject.Nonce sender =? Transaction.Nonce tx) then
    fail (NonceError (Transaction.Nonce tx) (StateObject.Nonce sender))
  else
    modify (set_sen (Some (StateObject.SetNonce
                             (uint64 (StateObject.Nonce sender + 1)) sender))) ;;;
    BuyGas ;;;
    receiver <- Receiver ;;
    UseGas GasTx ;;;
    let dataPrice := Z.of_nat (length (Transaction.Data tx)) * GasData in
    UseGas dataPrice ;;;
    receiver <- match receiver with
                | Some r => ret r
                | None =>
                    made <- MakeStateObject tx ;;
                    match made with
                    | Some r => ret r
                    | None => fail ContractCreationFailed
                    end
                end ;;
    sender <- Sender ;;
    receiver <- transferValue sender receiver ;;
    receiver <- (if Transaction.CreatesContract tx then
                   res <- Eval (StateObject.Init receiver) receiver ;;
                   match snd res with
                   | Some cause => fail (InitializationFailed cause)
                   | None => ret (StateObject.SetScript (fst res) receiver)
                   end
                 else ret receiver) ;;
    sender <- Sender ;;
    modify (fun s => set_state (State.UpdateStateObject sender (state s)) s) ;;;
    modify (fun s => set_state (State.UpdateStateObject receiver (state s)) s).

(** Running one transaction against a ledger: the error, if any, and the
    session as it is left, whose [state] is the ledger the caller sees. *)
Definition apply (coinbase : string) (tx : Transaction.t) (state : State.t)
    (block : Block) : (TransitionError + unit) * StateTransition :=
  TransitionState (NewStateTransition coinbase tx state block).

End Methods.

(** ** The objects of one run, step by step

    The values the session holds after each step of [TransitionState] run
    on a fresh session, named so that statements about a run can refer to
    them. *)
Section Trace.
Context `{GasSchedule} `{AddressScheme} `{ScriptEngine} `{ContractFactory}.
Variables (coinbase : string) (tx : Transaction.t) (st : State.t) (blk : Block).

(** The sender as fetched, after the nonce bump, after paying for the gas
    and after paying the value. *)
Definition sender0 : StateObject.t := State.GetAccount st (Transaction.Sender tx).
Definition sender1 : StateObject.t :=
  StateObject.SetNonce (uint64 (StateObject.Nonce sender0 + 1)) sender0.
Definition sender2 : StateObject.t :=
  StateObject.SubAmount (Transaction.GasValue tx) sender1.
Definition sender3 : StateObject.t :=
  StateObject.SubAmount (Transaction.Value tx) sender2.

(** The proposer after the fee credit, and the ledger once that credit is
    written. *)
Definition proposer1 : StateObject.t :=
  StateObject.AddAmount (Transaction.Gas tx * Transaction.GasPrice tx)
    (State.GetAccount st coinbase).
Definition ledger1 : State.t := State.UpdateStateObject proposer1 st.

Definition dataPrice : Z := Z.of_nat (length (Transaction.Data tx)) * GasData.
Definition gas2 : Z := Transaction.Gas tx - GasTx - dataPrice.

(** The address the receiver is stored under. *)
Definition receiver_address : string :=
  if Transaction.CreatesContract tx then Transaction.CreationAddress tx
  else Transaction.Recipient tx.

(** The ledger when the value is transferred: on the creation path the new
    contract's nested state has been registered. *)
Definition ledger2 : State.t :=
  if Transaction.CreatesContract tx
  then State.set_states (Transaction.CreationAddress tx) ∅ ledger1
  else ledger1.

(** The receiver as resolved or created, and after the value credit. *)
Definition receiver0 : StateObject.t :=
  if Transaction.CreatesContract tx
  then StateObject.mk (Transaction.CreationAddress tx) 0 0 ∅ [] (Transaction.Data tx)
  else State.GetAccount ledger1 (Transaction.Recipient tx).
Definition receiver1 : StateObject.t :=
  StateObject.AddAmount (Transaction.Value tx) receiver0.

(** The result of the script engine on the initialization payload. *)
Definition init_run : list Byte.byte * option string :=
  Call sender3 receiver1 (StateObject.Init receiver1) ledger2 gas2
    (Transaction.GasPrice tx)
    (mkRuntimeVars (StateObject.address sender3) (Number blk) (PrevHash blk)
       (Coinbase_ blk) (Time blk) (Difficulty blk) (Transaction.Value tx))
    (Transaction.Data tx).

(** The receiver as the commit writes it: with the engine's code installed
    on the creation path. *)
Definition committed_receiver : StateObject.t :=
  if Transaction.CreatesContract tx
  then StateObject.SetScript (fst init_run) receiver1
  else receiver1.

(** The conditions under which every check of [TransitionState] passes. *)
Definition all_checks_pass : Prop :=
  Transaction.Nonce tx = StateObject.Nonce sender0
  /\ Transaction.GasValue tx <= StateObject.Amount sender0
  /\ GasTx <= Transaction.Gas tx
  /\ dataPrice <= Transaction.Gas tx - GasTx
  /\ Transaction.Value tx <= StateObject.Amount sender0 - Transaction.GasValue tx
  /\ (Transaction.CreatesContract tx = true ->
      rejected tx ledger1 = false /\ snd init_run = None).

(** The cached receiver: none on the creation path. *)
Definition rec0 : option StateObject.t :=
  if Transaction.CreatesContract tx then None else Some receiver0.

(** The run of [TransitionState] on a fresh session, path by path: the
    error or success of each exit of the function and the session it leaves.
    [apply_symbolic] below proves that this is what [apply] computes. *)
Definition symbolic_run : (TransitionError + unit) * StateTransition :=
  if negb (StateObject.Nonce sender0 =? Transaction.Nonce tx) then
    (inl (NonceMismatch (StateObject.Nonce sender0) (Transaction.Nonce tx)),
     mkST coinbase tx 0 st blk None None (Some sender0))
  else if StateObject.Amount sender0 <? Transaction.GasValue tx then
    (inl (InsufficientGasFunds (Transaction.GasValue tx) (Transaction.Value tx)),
     mkST coinbase tx 0 st blk None None (Some sender1))
  else if Transaction.Gas tx <? GasTx then
    (inl OutOfGas,
     mkST coinbase tx (Transaction.Gas tx) ledger1 blk (Some proposer1) rec0 (Some sender2))
  else if Transaction.Gas tx - GasTx <? dataPrice then
    (inl OutOfGas,
     mkST coinbase tx (Transaction.Gas tx - GasTx) ledger1 blk (Some proposer1) rec0
       (Some sender2))
  else if Transaction.CreatesContract tx && rejected tx ledger1 then
    (inl ContractCreationFailed,
     mkST coinbase tx gas2 ledger1 blk (Some proposer1) rec0 (Some sender2))
  else if StateObject.Amount sender2 <? Transaction.Value tx then
    (inl (InsufficientValueFunds (Transaction.Value tx) (StateObject.Amount sender2)),
     mkST coinbase tx gas2 ledger2 blk (Some proposer1) rec0 (Some sender2))
  else if Transaction.CreatesContract tx then
    match snd init_run with
    | Some cause =>
        (inl (InitializationFailed cause),
         mkST coinbase tx gas2 ledger2 blk (Some proposer1) None (Some sender3))
    | None =>
        (inr tt,
         mkST coinbase tx gas2
           (State.UpdateStateObject (StateObject.SetScript (fst init_run) receiver1)
              (State.UpdateStateObject sender3 ledger2))
           blk (Some proposer1) None (Some sender3))
    end
  else
    (inr tt,
     mkST coinbase tx gas2
       (State.UpdateStateObject receiver1 (State.UpdateStateObject sender3 ledger1))
       blk (Some proposer1) (Some receiver1) (Some sender3)).

End Trace.

(** ** Sample collaborators and inputs *)

Definition sample_schedule : GasSchedule := {| GasTx := 3; GasData := 1 |}.

Definition sample_scheme : AddressScheme :=
  {| creation_address := fun s _ => String.append "contract:" s |}.

(** An engine that returns the script it is given and fails on an empty
    one. *)
Definition sample_engine : ScriptEngine :=
  {| Call := fun _ _ script _ _ _ _ _ =>
       match script with
       | [] => ([], Some "empty script"%string)
       | _ => (script, None)
       end |}.

(** A factory that rejects a creation address already in use. *)
Definition sample_factory : ContractFactory :=
  {| rejected := fun tx st =>
       bool_decide (is_Some (State.trie st !! @Transaction.CreationAddress sample_scheme tx)) |}.

Definition sample_block : Block := mkBlock 1 [] "miner" 0 0.

Definition alice : StateObject.t := StateObject.mk "alice" 100 0 ∅ [] [].
Definition sample_ledger : State.t := State.mk {[ "alice"%string := alice ]} ∅.

Definition run (coinbase : string) (tx : Transaction.t) (st : State.t)
    : (TransitionError + unit) * StateTransition :=
  @apply sample_schedule sample_scheme sample_engine sample_factory
    coinbase tx st sample_block.

(** Alice pays Carol 10 with gas 5 at price 1. *)
Definition tx_pay : Transaction.t := Transaction.mk 0 "carol" 10 5 1 [] "alice".
(** Alice pays herself 10. *)
Definition tx_self : Transaction.t := Transaction.mk 0 "alice" 10 5 1 [] "alice".
(** Alice tries to pay Carol more than she has. *)
Definition tx_overdraw : Transaction.t := Transaction.mk 0 "carol" 1000 5 1 [] "alice".
(** Alice creates a contract endowed with 10. *)
Definition tx_create : Transaction.t :=
  Transaction.mk 0 EmptyString 10 5 1 [Byte.x60] "alice".
(** A transaction with a stale nonce. *)
Definition tx_stale : Transaction.t := Transaction.mk 7 "carol" 10 5 1 [] "alice".
(** A sender at the largest nonce, and its next transaction. *)
Definition last_nonce_ledger : State.t :=
  State.mk {[ "alice"%string := StateObject.mk "alice" 100 (2 ^ 64 - 1) ∅ [] [] ]} ∅.
Definition tx_last_nonce : Transaction.t :=
  Transaction.mk (2 ^ 64 - 1) "carol" 10 5 1 [] "alice".
(** A transaction that buys less gas than the base cost. *)
Definition tx_nogas : Transaction.t := Transaction.mk 0 "carol" 10 2 1 [] "alice".

End Ethchain.

(* ===================================================================== *)
(** * Properties of the message reader *)
(* ===================================================================== *)

Module EthwireProps.
Import Ethwire.

Lemma uint64_small (z : Z) : 0 <= z < 2 ^ 64 -> uint64 z = z.
Proof. intros Hz. unfold uint64. now apply Z.mod_small. Qed.

(** A big-endian number of at most [n] bytes is below [256 ^ n]. *)
Lemma be_fold_bound (b : list Byte.byte) (acc : Z) :
  0 <= acc ->
  0 <= fold_left (fun a x => a * 256 + Z.of_N (Byte.to_N x)) b acc
    < (acc + 1) * 256 ^ Z.of_nat (length b).
Proof.
  revert acc. induction b as [|x b IH]; intros acc Hacc; cbn [fold_left length].
  - change (256 ^ Z.of_nat 0) with 1. lia.
  - pose proof (Strings.Byte.to_N_bounded x) as Hx.
    assert (0 <= Z.of_N (Byte.to_N x) <= 255) as Hx' by lia.
    specialize (IH (acc * 256 + Z.of_N (Byte.to_N x)) ltac:(lia)).
    rewrite Nat2Z.inj_succ, Z.pow_succ_r by lia.
    split; [lia|].
    eapply Z.lt_le_trans; [apply IH|].
    assert (0 < 256 ^ Z.of_nat (length b)) by (apply Z.pow_pos_nonneg; lia).
    nia.
Qed.

Lemma BytesToNumber_4 (b : list Byte.byte) :
  length b = 4%nat -> 0 <= BytesToNumber b < 2 ^ 32.
Proof.
  intros Hlen. unfold BytesToNumber.
  pose proof (be_fold_bound b 0 ltac:(lia)) as Hb.
  rewrite Hlen in Hb. change ((0 + 1) * 256 ^ Z.of_nat 4) with (2 ^ 32) in Hb.
  rewrite uint64_small; lia.
Qed.

Section ReaderProps.
Context `{ValueCodec}.

(** C10, as the code has it: on a frame longer than the 8-byte header that
    starts with the magic token and declares more payload bytes than
    follow the header, [ReadMessage] does not return the message-length
    error; the slice [data[8+messageLength:]], taken before the length is
    compared, panics. *)
Theorem ReadMessage_overlong_length_panics (data : list Byte.byte) :
  (8 < length data)%nat ->
  take 4 data = MagicToken ->
  Z.of_nat (length data) - 8 < BytesToNumber (take 4 (drop 4 data)) ->
  ReadMessage data = Panicked "slice bounds out of range".
Proof.
  intros Hlen Hmagic Hdecl.
  assert (length (take 4 (drop 4 data)) = 4%nat) as Hl4.
  { rewrite length_take, length_drop. lia. }
  pose proof (BytesToNumber_4 _ Hl4) as Hm.
  unfold ReadMessage.
  destruct (Nat.eqb_spec (length data) 0) as [?|_]; [lia|].
  destruct (Nat.leb_spec (length data) 8) as [?|_]; [lia|].
  unfold slice at 1.
  replace ((0 <=? 0) && (0 <=? 4) && (4 <=? Z.of_nat (length data))) with true
    by (symmetry; rewrite !andb_true_iff, !Z.leb_le; lia).
  cbn [bind]. change (Z.to_nat (4 - 0)) with 4%nat. change (Z.to_nat 0) with 0%nat.
  rewrite drop_0, Hmagic.
  unfold bytes_differ. rewrite bool_decide_eq_true_2 by reflexivity. cbn [negb].
  unfold slice at 1.
  replace ((0 <=? 4) && (4 <=? 8) && (8 <=? Z.of_nat (length data))) with true
    by (symmetry; rewrite !andb_true_iff, !Z.leb_le; lia).
  cbn [bind]. change (Z.to_nat (8 - 4)) with 4%nat. change (Z.to_nat 4) with 4%nat.
  rewrite (uint64_small (8 + _)) by lia.
  unfold slice_from at 1.
  replace (8 + BytesToNumber (take 4 (drop 4 data)) <=? Z.of_nat (length data))
    with false by (symmetry; apply Z.leb_gt; lia).
  rewrite andb_false_r. reflexivity.
Qed.

End ReaderProps.

(** The frame [MagicToken ++ 00 00 00 05 ++ 01] declares 5 payload bytes and
    carries 1. *)
Lemma ReadMessage_overlong_length_panics_witness :
  (8 < length short_frame)%nat /\
  take 4 short_frame = MagicToken /\
  Z.of_nat (length short_frame) - 8 < BytesToNumber (take 4 (drop 4 short_frame)) /\
  @ReadMessage raw_codec short_frame = Panicked "slice bounds out of range".
Proof.
  assert (8 < length short_frame)%nat as H1 by (vm_compute; lia).
  assert (take 4 short_frame = MagicToken) as H2 by reflexivity.
  assert (Z.of_nat (length short_frame) - 8
          < BytesToNumber (take 4 (drop 4 short_frame))) as H3 by (vm_compute; reflexivity).
  exact (conj H1 (conj H2 (conj H3
    (@ReadMessage_overlong_length_panics raw_codec short_frame H1 H2 H3)))).
Defined.

End EthwireProps.

(* ===================================================================== *)
(** * Properties of the state transition *)
(* ===================================================================== *)

Module EthchainProps.
Import Ethchain.

(** ** The ledger as a key-value store *)
Section Ledger.

Lemma SetAddress_id (o : StateObject.t) :
  StateObject.SetAddress (StateObject.address o) o = o.
Proof. now destruct o. Qed.

Lemma GetAccount_address (st : State.t) (a : string) :
  StateObject.address (State.GetAccount st a) = a.
Proof. unfold State.GetAccount. now destruct (State.trie st !! a). Qed.

Lemma GetAccount_update_eq (o : StateObject.t) (st : State.t) :
  State.GetAccount (State.UpdateStateObject o st) (StateObject.address o) = o.
Proof.
  unfold State.GetAccount, State.UpdateStateObject; cbn.
  rewrite lookup_insert_eq. apply SetAddress_id.
Qed.

Lemma GetAccount_update_ne (o : StateObject.t) (st : State.t) (a : string) :
  StateObject.address o ≠ a ->
  State.GetAccount (State.UpdateStateObject o st) a = State.GetAccount st a.
Proof.
  intros Hne. unfold State.GetAccount, State.UpdateStateObject; cbn.
  now rewrite lookup_insert_ne.
Qed.

(** Two ledgers with the same account entries answer [GetAccount] alike. *)
Lemma GetAccount_ext (s1 s2 : State.t) (a : string) :
  State.trie s1 !! a = State.trie s2 !! a ->
  State.GetAccount s1 a = State.GetAccount s2 a.
Proof. intros Heq. unfold State.GetAccount. now rewrite Heq. Qed.

End Ledger.

(** ** The gas counter *)
Section Gas.

Lemma UseGas_short (self : StateTransition) (amount : Z) :
  gas self < amount -> UseGas amount self = (inl OutOfGas, self).
Proof.
  intros Hlt. unfold UseGas, OutOfGasError.
  now rewrite (proj2 (Z.ltb_lt _ _) Hlt).
Qed.

Lemma UseGas_enough (self : StateTransition) (amount : Z) :
  amount <= gas self ->
  UseGas amount self = (inr tt, set_gas (gas self - amount) self).
Proof.
  intros Hle. unfold UseGas.
  now rewrite (proj2 (Z.ltb_ge _ _) Hle).
Qed.

Lemma UseGas_inv (self s' : StateTransition) (amount : Z) (r : TransitionError + unit) :
  UseGas amount self = (r, s') ->
  (r = inl OutOfGas /\ s' = self /\ gas self < amount) \/
  (r = inr tt /\ gas s' = gas self - amount /\ 0 <= gas s').
Proof.
  unfold UseGas, OutOfGasError.
  destruct (Z.ltb_spec (gas self) amount) as [Hlt|Hge]; intros [= <- <-].
  - left. auto.
  - right. cbn. repeat split; lia.
Qed.

End Gas.

Section Run.
Context `{GasSchedule} `{AddressScheme} `{ScriptEngine} `{ContractFactory}.
Variables (coinbase : string) (tx : Transaction.t) (st : State.t) (blk : Block).

(** Symbolic execution: [apply] takes exactly the paths of
    [symbolic_run]. *)
Lemma apply_symbolic : apply coinbase tx st blk = symbolic_run coinbase tx st blk.
Proof.
  unfold apply, symbolic_run, TransitionState, BuyGas, transferValue, Eval, Receiver,
    MakeStateObject, MakeContract, UseGas, AddGas, Sender, Coinbase,
    bind, get, modify, ret, fail, NewStateTransition, NonceError, OutOfGasError,
    rec0, init_run, gas2, receiver1, receiver0, ledger2, ledger1, proposer1,
    sender3, sender2, sender1, sender0, dataPrice,
    set_gas, set_state, set_cb, set_rec, set_sen.
  cbn.
  set (s0 := State.GetAccount st (Transaction.Sender tx)).
  set (c0 := State.GetAccount st coinbase).
  destruct (StateObject.Nonce s0 =? Transaction.Nonce tx); cbn; [|reflexivity].
  destruct (StateObject.Amount s0 <? Transaction.GasValue tx); cbn; [reflexivity|].
  fold c0.
  destruct (Transaction.CreatesContract tx) eqn:Hc; cbn.
  all: rewrite ?Z.add_0_l.
  all: destruct (Transaction.Gas tx <? GasTx); cbn; [reflexivity|].
  all: destruct (Transaction.Gas tx - GasTx <? _); cbn; [reflexivity|].
  - destruct (rejected tx _); cbn; [reflexivity|].
    destruct (StateObject.Amount s0 - Transaction.GasValue tx <? Transaction.Value tx);
      cbn; [reflexivity|].
    rewrite Hc; cbn.
    rewrite ?Z.add_0_l.
    match goal with |- context [Call ?a ?b ?c ?d ?e ?f ?g ?h] =>
      destruct (Call a b c d e f g h) as [code [cause|]] end; reflexivity.
  - destruct (StateObject.Amount s0 - Transaction.GasValue tx <? Transaction.Value tx);
      cbn; [reflexivity|].
    rewrite Hc; cbn. reflexivity.
Qed.

Lemma sender1_Amount :
  StateObject.Amount (sender1 tx st) = StateObject.Amount (sender0 tx st).
Proof. reflexivity. Qed.

Lemma sender2_Amount :
  StateObject.Amount (sender2 tx st)
  = StateObject.Amount (sender0 tx st) - Transaction.GasValue tx.
Proof. reflexivity. Qed.

Lemma sender3_Amount :
  StateObject.Amount (sender3 tx st)
  = StateObject.Amount (sender0 tx st) - Transaction.GasValue tx - Transaction.Value tx.
Proof. reflexivity. Qed.

Lemma sender3_address : StateObject.address (sender3 tx st) = Transaction.Sender tx.
Proof. cbn. apply GetAccount_address. Qed.

Lemma proposer1_address : StateObject.address (proposer1 coinbase tx st) = coinbase.
Proof. cbn. apply GetAccount_address. Qed.

Lemma receiver1_address :
  StateObject.address (receiver1 coinbase tx st) = receiver_address tx.
Proof.
  unfold receiver1, receiver0, receiver_address.
  destruct (Transaction.CreatesContract tx); cbn; [reflexivity|].
  apply GetAccount_address.
Qed.

Lemma ledger1_trie :
  State.trie (ledger1 coinbase tx st)
  = <[coinbase := proposer1 coinbase tx st]> (State.trie st).
Proof. unfold ledger1, State.UpdateStateObject; cbn. now rewrite GetAccount_address. Qed.

Lemma ledger2_trie :
  State.trie (ledger2 coinbase tx st) = State.trie (ledger1 coinbase tx st).
Proof. unfold ledger2. now destruct (Transaction.CreatesContract tx). Qed.

Abbreviation result := (apply coinbase tx st blk).

(** C4.  A transaction whose nonce differs from the sender's is refused with
    [NonceMismatch(expected = sender.nonce, got = tx.nonce)]; the session's
    sender object is the account exactly as fetched (balance, code and nonce
    untouched) and the ledger is the one the call started from. *)
Theorem nonce_mismatch_rejected :
  Transaction.Nonce tx ≠ StateObject.Nonce (State.GetAccount st (Transaction.Sender tx)) ->
  fst result
  = inl (NonceMismatch (StateObject.Nonce (State.GetAccount st (Transaction.Sender tx)))
           (Transaction.Nonce tx))
  /\ sen (snd result) = Some (State.GetAccount st (Transaction.Sender tx))
  /\ state (snd result) = st.
Proof.
  intros Hne. rewrite apply_symbolic. unfold symbolic_run.
  fold (sender0 tx st) in Hne.
  destruct (Z.eqb_spec (StateObject.Nonce (sender0 tx st)) (Transaction.Nonce tx)) as [Heq|_].
  - congruence.
  - cbn. auto.
Qed.

(** [BuyGas] on a session whose cached sender cannot pay for the gas returns
    before the proposer is touched: the session is left as it was. *)
Lemma BuyGas_short_of_funds (self : StateTransition) (o : StateObject.t) :
  sen self = Some o ->
  StateObject.Amount o < Transaction.GasValue (Ethchain.tx self) ->
  BuyGas self
  = (inl (InsufficientGasFunds (Transaction.GasValue (Ethchain.tx self))
            (Transaction.Value (Ethchain.tx self))), self).
Proof.
  intros Hsen Hlt. unfold BuyGas, bind, Sender, get, fail. rewrite Hsen.
  now rewrite (proj2 (Z.ltb_lt _ _) Hlt).
Qed.





(** C3, as the code has it.  After a successful transition the session's
    sender object holds the initial balance less [gasLimit * gasPrice] less
    the value, which is not negative; and this is the sender stored in the
    ledger whenever the receiver is stored under another address than the
    sender. *)
Theorem sender_balance_after_success :
  fst result = inr tt ->
  sen (snd result) = Some (sender3 tx st)
  /\ StateObject.Amount (sender3 tx st)
     = StateObject.Amount (State.GetAccount st (Transaction.Sender tx))
       - Transaction.Gas tx * Transaction.GasPrice tx - Transaction.Value tx
  /\ 0 <= StateObject.Amount (sender3 tx st)
  /\ (receiver_address tx ≠ Transaction.Sender tx ->
      State.GetAccount (state (snd result)) (Transaction.Sender tx) = sender3 tx st).
Proof.
  rewrite apply_symbolic. unfold symbolic_run.
  destruct (negb _); [discriminate|].
  destruct (Z.ltb_spec (StateObject.Amount (sender0 tx st)) (Transaction.GasValue tx))
    as [|Hfee]; [discriminate|].
  destruct (_ <? GasTx); [discriminate|].
  destruct (_ <? dataPrice tx); [discriminate|].
  destruct (_ && _); [discriminate|].
  destruct (Z.ltb_spec (StateObject.Amount (sender2 tx st)) (Transaction.Value tx))
    as [|Hval]; [discriminate|].
  rewrite sender2_Amount in Hval. unfold Transaction.GasValue in Hfee, Hval.
  assert (0 <= StateObject.Amount (sender3 tx st)) as Hpos.
  { rewrite sender3_Amount. unfold Transaction.GasValue. lia. }
  pose proof receiver1_address as Hraddr.
  destruct (Transaction.CreatesContract tx) eqn:Hc.
  - destruct (snd (init_run coinbase tx st blk)) eqn:Hrun; [discriminate|].
    intros _. cbn [fst snd sen state].
    repeat split; auto.
    intros Hne. rewrite GetAccount_update_ne.
    + rewrite <- sender3_address. apply GetAccount_update_eq.
    + cbn [StateObject.SetScript StateObject.address]. now rewrite Hraddr.
  - intros _. cbn [fst snd sen state].
    repeat split; auto.
    intros Hne. rewrite GetAccount_update_ne by now rewrite Hraddr.
    rewrite <- sender3_address. apply GetAccount_update_eq.
Qed.

(** C6.  With a non-negative gas limit the counter is non-negative at every
    exit of the transition; on success the two charges together do not
    exceed the purchased limit and the counter holds the difference; a
    charge above the counter fails with [OutOfGas] and leaves the session,
    counter included, as it was, and a charge that succeeds leaves a
    non-negative counter. *)
Theorem gas_counter_never_negative :
  0 <= Transaction.Gas tx ->
  0 <= gas (snd result)
  /\ (fst result = inr tt ->
      GasTx + dataPrice tx <= Transaction.Gas tx
      /\ gas (snd result) = Transaction.Gas tx - (GasTx + dataPrice tx))
  /\ (forall (self : StateTransition) (amount : Z),
        gas self < amount -> UseGas amount self = (inl OutOfGas, self))
  /\ (forall (self : StateTransition) (amount : Z),
        amount <= gas self ->
        UseGas amount self = (inr tt, set_gas (gas self - amount) self)
        /\ 0 <= gas (snd (UseGas amount self))).
Proof.
  intros Hgas. split; [|split; [|split]].
  - rewrite apply_symbolic. unfold symbolic_run, gas2.
    destruct (negb _); [cbn; lia|].
    destruct (_ <? Transaction.GasValue tx); [cbn; lia|].
    destruct (Z.ltb_spec (Transaction.Gas tx) GasTx); [cbn; lia|].
    destruct (Z.ltb_spec (Transaction.Gas tx - GasTx) (dataPrice tx)); [cbn; lia|].
    repeat match goal with
           | |- context [if ?b then _ else _] => destruct b eqn:?
           | |- context [match snd ?r with _ => _ end] => destruct (snd r) eqn:?
           end; cbn; lia.
  - rewrite apply_symbolic. unfold symbolic_run, gas2.
    destruct (negb _); [discriminate|].
    destruct (_ <? Transaction.GasValue tx); [discriminate|].
    destruct (Z.ltb_spec (Transaction.Gas tx) GasTx); [discriminate|].
    destruct (Z.ltb_spec (Transaction.Gas tx - GasTx) (dataPrice tx)); [discriminate|].
    repeat match goal with
           | |- context [if ?b then _ else _] => destruct b eqn:?
           | |- context [match snd ?r with _ => _ end] => destruct (snd r) eqn:?
           end; cbn; intros; try discriminate; lia.
  - exact UseGas_short.
  - intros self amount Hle. rewrite (UseGas_enough self amount Hle). cbn. split; [reflexivity|lia].
Qed.

(** C7.  After the gas purchase the base cost [GasTx] is charged first: if
    the purchased gas is short of it the transition fails with [OutOfGas]
    with the counter still at the purchased amount.  The data cost
    [len(payload) * GasData] is charged next: if what is left is short of
    it the transition fails with [OutOfGas] with only the base cost
    deducted.  Otherwise both are deducted and the transition goes on. *)
Theorem gas_charged_base_then_data :
  Transaction.Nonce tx = StateObject.Nonce (State.GetAccount st (Transaction.Sender tx)) ->
  Transaction.GasValue tx <= StateObject.Amount (State.GetAccount st (Transaction.Sender tx)) ->
  dataPrice tx = Z.of_nat (length (Transaction.Data tx)) * GasData
  /\ (Transaction.Gas tx < GasTx ->
      fst result = inl OutOfGas /\ gas (snd result) = Transaction.Gas tx)
  /\ (GasTx <= Transaction.Gas tx -> Transaction.Gas tx - GasTx < dataPrice tx ->
      fst result = inl OutOfGas /\ gas (snd result) = Transaction.Gas tx - GasTx)
  /\ (GasTx <= Transaction.Gas tx -> dataPrice tx <= Transaction.Gas tx - GasTx ->
      fst result ≠ inl OutOfGas
      /\ gas (snd result) = Transaction.Gas tx - GasTx - dataPrice tx).
Proof.
  intros Hnonce Hfunds. fold (sender0 tx st) in Hnonce, Hfunds.
  rewrite apply_symbolic. unfold symbolic_run.
  rewrite (proj2 (Z.eqb_eq _ _) (eq_sym Hnonce)). cbn [negb].
  rewrite (proj2 (Z.ltb_ge _ _) Hfunds).
  split; [reflexivity|]. split; [|split].
  - intros Hlt. rewrite (proj2 (Z.ltb_lt _ _) Hlt). cbn. auto.
  - intros Hbase Hdata.
    rewrite (proj2 (Z.ltb_ge _ _) Hbase), (proj2 (Z.ltb_lt _ _) Hdata). cbn. auto.
  - intros Hbase Hdata.
    rewrite (proj2 (Z.ltb_ge _ _) Hbase), (proj2 (Z.ltb_ge _ _) Hdata).
    repeat match goal with
           | |- context [if ?b then _ else _] => destruct b eqn:?
           | |- context [match snd ?r with _ => _ end] => destruct (snd r) eqn:?
           end; cbn; split; solve [discriminate | reflexivity].
Qed.

(** C8.  A contract-creating transaction whose sender covers the gas and the
    value, that buys enough gas for the base and data charges and whose
    contract object is instantiated, ends as the script engine decides: if
    the engine reports no error the transition succeeds and the ledger
    holds, at the creation address, an account whose code is the byte
    sequence the engine returned and whose balance is the transferred
    value; if it reports an error the transition fails with
    [InitializationFailed]. *)
Theorem contract_creation_installs_code :
  Transaction.CreatesContract tx = true ->
  Transaction.Nonce tx = StateObject.Nonce (State.GetAccount st (Transaction.Sender tx)) ->
  Transaction.GasValue tx <= StateObject.Amount (State.GetAccount st (Transaction.Sender tx)) ->
  GasTx <= Transaction.Gas tx ->
  dataPrice tx <= Transaction.Gas tx - GasTx ->
  rejected tx (ledger1 coinbase tx st) = false ->
  Transaction.Value tx
  <= StateObject.Amount (State.GetAccount st (Transaction.Sender tx)) - Transaction.GasValue tx ->
  match snd (init_run coinbase tx st blk) with
  | None =>
      fst result = inr tt
      /\ State.GetAccount (state (snd result)) (Transaction.CreationAddress tx)
         = StateObject.mk (Transaction.CreationAddress tx) (Transaction.Value tx) 0 ∅
             (fst (init_run coinbase tx st blk)) (Transaction.Data tx)
  | Some cause => fst result = inl (InitializationFailed cause)
  end.
Proof.
  intros Hc Hnonce Hfunds Hbase Hdata Hmade Hvalue.
  fold (sender0 tx st) in Hnonce, Hfunds, Hvalue.
  rewrite apply_symbolic. unfold symbolic_run.
  rewrite (proj2 (Z.eqb_eq _ _) (eq_sym Hnonce)). cbn [negb].
  rewrite (proj2 (Z.ltb_ge _ _) Hfunds).
  rewrite (proj2 (Z.ltb_ge _ _) Hbase), (proj2 (Z.ltb_ge _ _) Hdata).
  rewrite Hc, Hmade. cbn [andb].
  rewrite <- sender2_Amount in Hvalue.
  rewrite (proj2 (Z.ltb_ge _ _) Hvalue).
  destruct (snd (init_run coinbase tx st blk)) as [cause|]; cbn [fst snd state].
  - reflexivity.
  - split; [reflexivity|].
    set (r := StateObject.SetScript _ _).
    assert (StateObject.address r = Transaction.CreationAddress tx) as Haddr.
    { subst r. cbn [StateObject.SetScript StateObject.address].
      rewrite receiver1_address. unfold receiver_address. now rewrite Hc. }
    rewrite <- Haddr at 1. rewrite GetAccount_update_eq.
    subst r. unfold receiver1, receiver0. rewrite Hc. reflexivity.
Qed.

(** C9, as the code has it.  A transition refused with [NonceMismatch] or
    [InsufficientGasFunds] leaves the ledger as it was, and run again on
    the ledger it left it is refused in the same way and leaves the same
    session.  A transition that fails with [InsufficientValueFunds] leaves
    the ledger with the proposer's credit written (and, on the creation
    path, the new contract's nested state registered). *)
Theorem failed_replay (e : TransitionError) :
  fst result = inl e ->
  match e with
  | NonceMismatch _ _ | InsufficientGasFunds _ _ =>
      state (snd result) = st
      /\ apply coinbase tx (state (snd result)) blk = result
  | InsufficientValueFunds _ _ =>
      state (snd result) = ledger2 coinbase tx st
      /\ State.trie (state (snd result))
         = <[coinbase := proposer1 coinbase tx st]> (State.trie st)
  | _ => True
  end.
Proof.
  intros Hfail.
  assert (match e with
          | NonceMismatch _ _ | InsufficientGasFunds _ _ => state (snd result) = st
          | InsufficientValueFunds _ _ => state (snd result) = ledger2 coinbase tx st
          | _ => True
          end) as Hstate.
  { revert Hfail. rewrite apply_symbolic. unfold symbolic_run.
    repeat match goal with
           | |- context [if ?b then _ else _] => destruct b eqn:?
           | |- context [match snd ?r with _ => _ end] => destruct (snd r) eqn:?
           end; cbn [fst snd state]; intros [= <-]; auto. }
  destruct e; auto.
  - split; [exact Hstate|]. now rewrite Hstate.
  - split; [exact Hstate|]. now rewrite Hstate.
  - split; [exact Hstate|]. now rewrite Hstate, ledger2_trie, ledger1_trie.
Qed.

End Run.

(** ** The theorems at the sample inputs *)

Abbreviation at_sample thm :=
  (thm sample_schedule sample_scheme sample_engine sample_factory).

(** The payment scenario: Alice (100, nonce 0) pays Carol 10 with gas 5 at
    price 1; Alice ends at 85 with nonce 1, Carol at 10, the miner at 5. *)
Example payment_scenario :
  let after := state (snd (run "miner" tx_pay sample_ledger)) in
  fst (run "miner" tx_pay sample_ledger) = inr tt
  /\ StateObject.Amount (State.GetAccount after "alice") = 85
  /\ StateObject.Nonce (State.GetAccount after "alice") = 1
  /\ StateObject.Amount (State.GetAccount after "carol") = 10
  /\ StateObject.Amount (State.GetAccount after "miner") = 5.
Proof. vm_compute. repeat split; reflexivity. Qed.

(** The same payment with Alice as the block's proposer: her own entry,
    fetched before the credit, is written last and the credit is lost. *)
Example proposer_is_sender_scenario :
  StateObject.Amount
    (State.GetAccount (state (snd (run "alice" tx_pay sample_ledger))) "alice") = 85.
Proof. vm_compute. reflexivity. Qed.

(** A stale nonce 7 against Alice's nonce 0. *)
Lemma nonce_mismatch_rejected_witness :
  Transaction.Nonce tx_stale
    ≠ StateObject.Nonce (State.GetAccount sample_ledger (Transaction.Sender tx_stale))
  /\ fst (run "miner" tx_stale sample_ledger) = inl (NonceMismatch 0 7)
  /\ sen (snd (run "miner" tx_stale sample_ledger)) = Some alice
  /\ state (snd (run "miner" tx_stale sample_ledger)) = sample_ledger.
Proof.
  assert (Transaction.Nonce tx_stale
          ≠ StateObject.Nonce (State.GetAccount sample_ledger (Transaction.Sender tx_stale)))
    as Hne by (vm_compute; discriminate).
  split; [exact Hne|].
  exact (at_sample (@nonce_mismatch_rejected) "miner" tx_stale sample_ledger sample_block Hne).
Defined.





(** C3 as stated fails: Alice, with 100, pays herself 10 with gas worth 5.
    The transition succeeds and the ledger then holds 110 for Alice, not
    [100 - 5 - 10]: the receiver object, fetched on its own and written
    last, replaces the sender's entry. *)
Lemma self_transfer_stored_balance :
  fst (run "miner" tx_self sample_ledger) = inr tt
  /\ StateObject.Amount (State.GetAccount sample_ledger "alice") = 100
  /\ StateObject.Amount
       (State.GetAccount (state (snd (run "miner" tx_self sample_ledger))) "alice") = 110
  /\ StateObject.Amount
       (State.GetAccount (state (snd (run "miner" tx_self sample_ledger)))
          (Transaction.Sender tx_self))
     ≠ StateObject.Amount (State.GetAccount sample_ledger (Transaction.Sender tx_self))
       - Transaction.Gas tx_self * Transaction.GasPrice tx_self - Transaction.Value tx_self.
Proof.
  repeat split; try (vm_compute; reflexivity).
  vm_compute. discriminate.
Qed.

(** Alice, with 100, pays Carol 10 with gas worth 5 and is left with 85. *)
Lemma sender_balance_after_success_witness :
  fst (run "miner" tx_pay sample_ledger) = inr tt
  /\ StateObject.Amount (sender3 tx_pay sample_ledger) = 85
  /\ StateObject.Amount
       (State.GetAccount (state (snd (run "miner" tx_pay sample_ledger))) "alice") = 85.
Proof.
  assert (fst (run "miner" tx_pay sample_ledger) = inr tt) as Hok by reflexivity.
  destruct (at_sample (@sender_balance_after_success)
              "miner" tx_pay sample_ledger sample_block Hok)
    as (_ & _ & _ & Hstored).
  split; [exact Hok|]. split; [reflexivity|].
  change (run "miner" tx_pay sample_ledger)
    with (at_sample (@apply) "miner" tx_pay sample_ledger sample_block).
  change "alice"%string with (Transaction.Sender tx_pay).
  rewrite Hstored; [reflexivity|]. vm_compute. discriminate.
Defined.

Lemma gas_counter_never_negative_witness :
  0 <= Transaction.Gas tx_pay
  /\ 0 <= gas (snd (run "miner" tx_pay sample_ledger))
  /\ gas (snd (run "miner" tx_pay sample_ledger)) = 2.
Proof.
  assert (0 <= Transaction.Gas tx_pay) as Hgas by (vm_compute; discriminate).
  split; [exact Hgas|].
  split.
  - exact (proj1 (at_sample (@gas_counter_never_negative)
                    "miner" tx_pay sample_ledger sample_block Hgas)).
  - reflexivity.
Defined.

(** Gas 2 against a base cost of 3: [OutOfGas] with the counter at 2. *)
Lemma gas_charged_base_then_data_witness :
  fst (run "miner" tx_nogas sample_ledger) = inl OutOfGas
  /\ gas (snd (run "miner" tx_nogas sample_ledger)) = 2.
Proof.
  apply (at_sample (@gas_charged_base_then_data)
           "miner" tx_nogas sample_ledger sample_block).
  - reflexivity.
  - vm_compute. discriminate.
  - vm_compute. reflexivity.
Defined.

(** Alice creates a contract endowed with 10; the sample engine returns the
    initialization script as the code. *)
Lemma contract_creation_installs_code_witness :
  fst (run "miner" tx_create sample_ledger) = inr tt
  /\ State.GetAccount (state (snd (run "miner" tx_create sample_ledger))) "contract:alice"
     = StateObject.mk "contract:alice" 10 0 ∅ [Byte.x60] [Byte.x60].
Proof.
  apply (at_sample (@contract_creation_installs_code)
           "miner" tx_create sample_ledger sample_block).
  - reflexivity.
  - reflexivity.
  - vm_compute. discriminate.
  - vm_compute. discriminate.
  - vm_compute. discriminate.
  - vm_compute. reflexivity.
  - vm_compute. discriminate.
Defined.

(** C9 as stated fails: Alice buys gas for 5 and then cannot pay 1000.  The
    transition fails with [InsufficientValueFunds] and the ledger is not the
    one it started from: the miner's balance went from 0 to 5. *)
Lemma value_failure_changes_ledger :
  fst (run "miner" tx_overdraw sample_ledger) = inl (InsufficientValueFunds 1000 95)
  /\ StateObject.Amount (State.GetAccount sample_ledger "miner") = 0
  /\ StateObject.Amount
       (State.GetAccount (state (snd (run "miner" tx_overdraw sample_ledger))) "miner") = 5
  /\ state (snd (run "miner" tx_overdraw sample_ledger)) ≠ sample_ledger.
Proof.
  assert (StateObject.Amount
            (State.GetAccount (state (snd (run "miner" tx_overdraw sample_ledger))) "miner")
          = 5) as Hafter by (vm_compute; reflexivity).
  split; [reflexivity|]. split; [reflexivity|]. split; [exact Hafter|].
  intros Heq. rewrite Heq in Hafter. vm_compute in Hafter. discriminate.
Qed.

Lemma failed_replay_witness :
  fst (run "miner" tx_stale sample_ledger) = inl (NonceMismatch 0 7)
  /\ state (snd (run "miner" tx_stale sample_ledger)) = sample_ledger
  /\ run "miner" tx_stale (state (snd (run "miner" tx_stale sample_ledger)))
     = run "miner" tx_stale sample_ledger.
Proof.
  assert (fst (run "miner" tx_stale sample_ledger) = inl (NonceMismatch 0 7)) as Hfail
    by reflexivity.
  split; [exact Hfail|].
  exact (at_sample (@failed_replay) "miner" tx_stale sample_ledger sample_block _ Hfail).
Defined.

End EthchainProps.

(* ===================================================================== *)
(** * The reader on whole buffers, the connection and the message names *)
(* ===================================================================== *)

Module EthwireStream.
Import Ethwire.

Section Frames.
Context `{ValueEncoder}.

(** [ReadMessage] on a buffer split into token, length field and the
    rest. *)
Lemma ReadMessage_split (len4 rest : list Byte.byte) :
  length len4 = 4%nat -> rest ≠ [] ->
  ReadMessage (MagicToken ++ len4 ++ rest)
  = if Z.of_nat (length rest) <? BytesToNumber len4
    then Panicked "slice bounds out of range"
    else Returned (mkRead
           (Some (decoded (take (Z.to_nat (BytesToNumber len4)) rest)))
           (Some (drop (Z.to_nat (BytesToNumber len4)) rest)) false None).
Proof.
  intros Hl4 Hrest.
  pose proof (EthwireProps.BytesToNumber_4 len4 Hl4) as Hm.
  assert (0 < length rest)%nat as Hpos by (destruct rest; [congruence | cbn; lia]).
  set (data := MagicToken ++ len4 ++ rest).
  assert (length data = (8 + length rest)%nat) as Hlen.
  { subst data. rewrite !length_app, Hl4. reflexivity. }
  unfold ReadMessage.
  destruct (Nat.eqb_spec (length data) 0) as [?|_]; [lia|].
  destruct (Nat.leb_spec (length data) 8) as [?|_]; [lia|].
  assert (slice data 0 4 = Returned MagicToken) as ->.
  { unfold slice. rewrite Hlen.
    replace ((0 <=? 0) && (0 <=? 4) && (4 <=? Z.of_nat (8 + length rest))) with true
      by (symmetry; rewrite !andb_true_iff, !Z.leb_le; lia).
    reflexivity. }
  cbn [bind]. unfold bytes_differ.
  rewrite bool_decide_eq_true_2 by reflexivity. cbn [negb].
  assert (slice data 4 8 = Returned len4) as ->.
  { unfold slice. rewrite Hlen.
    replace ((0 <=? 4) && (4 <=? 8) && (8 <=? Z.of_nat (8 + length rest))) with true
      by (symmetry; rewrite !andb_true_iff, !Z.leb_le; lia).
    change (Z.to_nat (8 - 4)) with 4%nat. change (Z.to_nat 4) with 4%nat.
    subst data. change (drop 4 (MagicToken ++ len4 ++ rest)) with (len4 ++ rest).
    now rewrite <- Hl4, take_app_length. }
  cbn [bind]. rewrite (EthwireProps.uint64_small (8 + _)) by lia.
  assert (drop 8 data = rest) as Hdrop8.
  { subst data. rewrite app_assoc. rewrite drop_app_length'; [reflexivity|].
    rewrite length_app, Hl4. reflexivity. }
  unfold slice_from at 1. rewrite Hlen.
  destruct (Z.ltb_spec (Z.of_nat (length rest)) (BytesToNumber len4)) as [Hover|Hfits].
  - replace (8 + BytesToNumber len4 <=? Z.of_nat (8 + length rest)) with false
      by (symmetry; apply Z.leb_gt; lia).
    now rewrite andb_false_r.
  - replace ((0 <=? 8 + BytesToNumber len4)
             && (8 + BytesToNumber len4 <=? Z.of_nat (8 + length rest))) with true
      by (symmetry; rewrite !andb_true_iff, !Z.leb_le; lia).
    cbn [bind]. unfold slice_from. rewrite Hlen.
    replace ((0 <=? 8) && (8 <=? Z.of_nat (8 + length rest))) with true
      by (symmetry; rewrite !andb_true_iff, !Z.leb_le; lia).
    cbn [bind]. change (Z.to_nat 8) with 8%nat. rewrite Hdrop8.
    unfold int_of_uint64.
    replace (BytesToNumber len4 <? 2 ^ 63) with true by (symmetry; apply Z.ltb_lt; lia).
    replace (Z.of_nat (length rest) <? BytesToNumber len4) with false
      by (symmetry; apply Z.ltb_ge; lia).
    unfold slice. rewrite Hlen.
    replace ((0 <=? 8) && (8 <=? 8 + BytesToNumber len4)
             && (8 + BytesToNumber len4 <=? Z.of_nat (8 + length rest))) with true
      by (symmetry; rewrite !andb_true_iff, !Z.leb_le; lia).
    cbn [bind]. change (Z.to_nat 8) with 8%nat. rewrite Hdrop8.
    replace (8 + BytesToNumber len4 - 8) with (BytesToNumber len4) by lia.
    replace (Z.to_nat (8 + BytesToNumber len4))
      with (8 + Z.to_nat (BytesToNumber len4))%nat by lia.
    rewrite <- drop_drop, Hdrop8. reflexivity.
Qed.


Lemma split_header (data : list Byte.byte) :
  (8 < length data)%nat ->
  data = take 4 data ++ take 4 (drop 4 data) ++ drop 8 data
  /\ length (take 4 (drop 4 data)) = 4%nat
  /\ drop 8 data ≠ []
  /\ length (drop 8 data) = (length data - 8)%nat.
Proof.
  intros Hlen. split; [|split; [|split]].
  - rewrite <- (take_drop 4 data) at 1. f_equal.
    rewrite <- (take_drop 4 (drop 4 data)) at 1. f_equal.
    now rewrite drop_drop.
  - rewrite length_take, length_drop. lia.
  - intros Hnil. apply (f_equal length) in Hnil. rewrite length_drop in Hnil.
    cbn in Hnil. lia.
  - apply length_drop.
Qed.

(** The five exits of [ReadMessage]. *)
Lemma ReadMessage_cases (data : list Byte.byte) :
  (data = [] /\ ReadMessage data = Returned (mkRead None None true None))
  \/ ((0 < length data <= 8)%nat
      /\ ReadMessage data = Returned (mkRead None None false (Some "Invalid message"%string)))
  \/ ((8 < length data)%nat /\ take 4 data ≠ MagicToken
      /\ ReadMessage data
         = Returned (mkRead None None false (Some "MagicToken mismatch. Received %v"%string)))
  \/ ((8 < length data)%nat /\ take 4 data = MagicToken
      /\ Z.of_nat (length data) - 8 < declared data
      /\ ReadMessage data = Panicked "slice bounds out of range")
  \/ ((8 < length data)%nat /\ take 4 data = MagicToken
      /\ declared data <= Z.of_nat (length data) - 8
      /\ ReadMessage data
         = Returned (mkRead
             (Some (decoded (take (Z.to_nat (declared data)) (drop 8 data))))
             (Some (drop (Z.to_nat (declared data)) (drop 8 data))) false None)).
Proof.
  destruct (Nat.eqb_spec (length data) 0) as [Hz|Hnz].
  { left. destruct data; [|discriminate]. split; reflexivity. }
  destruct (Nat.leb_spec (length data) 8) as [Hle|Hgt].
  { right; left. split; [lia|]. unfold ReadMessage.
    destruct (Nat.eqb_spec (length data) 0); [lia|].
    destruct (Nat.leb_spec (length data) 8); [reflexivity|lia]. }
  right; right.
  destruct (decide (take 4 data = MagicToken)) as [Hmagic|Hmagic].
  - right.
    destruct (split_header data Hgt) as (Hsplit & Hl4 & Hrest & Hlrest).
    pose proof (ReadMessage_split (take 4 (drop 4 data)) (drop 8 data) Hl4 Hrest) as Hrun.
    rewrite <- Hmagic in Hrun at 1. rewrite <- Hsplit in Hrun.
    fold (declared data) in Hrun. rewrite Hlrest in Hrun.
    destruct (Z.ltb_spec (Z.of_nat (length data - 8)) (declared data)) as [Hover|Hfits].
    + left. repeat split; auto. lia.
    + right. repeat split; auto. lia.
  - left. repeat split; auto. unfold ReadMessage.
    destruct (Nat.eqb_spec (length data) 0); [lia|].
    destruct (Nat.leb_spec (length data) 8); [lia|].
    unfold slice.
    replace ((0 <=? 0) && (0 <=? 4) && (4 <=? Z.of_nat (length data))) with true
      by (symmetry; rewrite !andb_true_iff, !Z.leb_le; lia).
    cbn [bind]. change (Z.to_nat (4 - 0)) with 4%nat. change (Z.to_nat 0) with 0%nat.
    rewrite drop_0. unfold bytes_differ.
    rewrite bool_decide_eq_false_2 by congruence. reflexivity.
Qed.



(** X3.  A buffer of one to eight bytes is refused as an invalid message
    without looking at it; in particular a frame with an empty payload that
    ends the buffer, header bytes only, is refused although it is well
    formed. *)
Theorem ReadMessage_header_only_invalid (data : list Byte.byte) :
  (0 < length data <= 8)%nat ->
  ReadMessage data = Returned (mkRead None None false (Some "Invalid message"%string))
  /\ (forall len4 : list Byte.byte, length len4 = 4%nat ->
       ReadMessage (MagicToken ++ len4)
       = Returned (mkRead None None false (Some "Invalid message"%string))).
Proof.
  intros Hlen. split.
  - destruct (ReadMessage_cases data)
      as [(-> & Hr)|[(Hl & Hr)|[(Hl & _)|[(Hl & _)|(Hl & _)]]]];
      cbn in *; solve [lia | exact Hr].
  - intros len4 Hl4. unfold ReadMessage. rewrite length_app, Hl4. reflexivity.
Qed.

(** X4.  Whenever [ReadMessage] returns without being done, what it leaves
    to read is strictly shorter than what it was given. *)
Theorem ReadMessage_progress (data : list Byte.byte) (r : ReadResult) :
  ReadMessage data = Returned r ->
  done_ r = false ->
  (length (match remaining r with Some rest => rest | None => [] end) < length data)%nat.
Proof.
  intros Hrun Hdone.
  destruct (ReadMessage_cases data)
    as [(-> & Hr)|[(Hl & Hr)|[(Hl & Hm & Hr)|[(Hl & Hm & Hd & Hr)|(Hl & Hm & Hd & Hr)]]]];
    rewrite Hr in Hrun; try discriminate; injection Hrun as <-; cbn in *;
    try discriminate; try lia.
  rewrite !length_drop. lia.
Qed.


(** ** The message loop *)

Lemma message_loop_enough (n : nat) :
  forall (data : list Byte.byte) (acc : list Msg),
    (length data <= n)%nat ->
    exists r : Received,
      message_loop (S (S n)) data acc = Some r
      /\ (rerr r = None
          \/ rerr r = Some "ethwire.ReadMessage error: slice bounds out of range"%string).
Proof.
  induction n as [|n IH]; intros data acc Hlen.
  - destruct data; [|cbn in Hlen; lia].
    eexists. split; [reflexivity|]. left. reflexivity.
  - cbn [message_loop].
    destruct (ReadMessage_cases data)
      as [(-> & Hr)|[(Hl & Hr)|[(Hl & Hm & Hr)|[(Hl & Hm & Hd & Hr)|(Hl & Hm & Hd & Hr)]]]];
      rewrite Hr; cbn [done_ remaining msg err].
    + eexists. split; [reflexivity|]. left. reflexivity.
    + apply IH. cbn. lia.
    + apply IH. cbn. lia.
    + eexists. split; [reflexivity|]. right. reflexivity.
    + apply IH. rewrite !length_drop. lia.
Qed.


(** Fuel beyond what the loop uses does not change its result. *)
Lemma message_loop_more_fuel (fuel : nat) :
  forall (data : list Byte.byte) (acc : list Msg) (r : Received) (extra : nat),
    message_loop fuel data acc = Some r ->
    message_loop (fuel + extra) data acc = Some r.
Proof.
  induction fuel as [|fuel IH]; intros data acc r extra; [discriminate|].
  cbn [message_loop Nat.add].
  destruct (ReadMessage data) as [res|why]; [|auto].
  destruct (done_ res); [auto|]. apply IH.
Qed.

Lemma message_loop_from_bound (data : list Byte.byte) (acc : list Msg)
    (fuel : nat) (r : Received) :
  message_loop fuel data acc = Some r ->
  message_loop (S (S (length data))) data acc = Some r.
Proof.
  intros Hrun.
  destruct (message_loop_enough (length data) data acc (le_n _)) as (r' & Hr' & _).
  pose proof (message_loop_more_fuel _ _ _ _ (S (S (length data))) Hrun) as H1.
  pose proof (message_loop_more_fuel _ _ _ _ fuel Hr') as H2.
  rewrite Nat.add_comm in H2. congruence.
Qed.

(** The length field the writers emit is read back as the length. *)
Lemma byte_of_Z_value (z : Z) : Z.of_N (Byte.to_N (byte_of_Z z)) = z mod 256.
Proof.
  unfold byte_of_Z.
  assert (0 <= z mod 256 < 256) as Hz by (apply Z.mod_pos_bound; lia).
  destruct (Byte.of_N (Z.to_N (z mod 256))) as [b|] eqn:Hb.
  - apply Strings.Byte.to_of_N in Hb. rewrite Hb. lia.
  - apply Strings.Byte.of_N_None_iff in Hb. lia.
Qed.

Lemma length_field_roundtrip (n : Z) :
  0 <= n < 2 ^ 32 -> BytesToNumber (NumberToBytes32 n) = n.
Proof.
  intros Hn. unfold BytesToNumber, NumberToBytes32. cbn [fold_left].
  rewrite !byte_of_Z_value.
  rewrite EthwireProps.uint64_small.
  - change (2 ^ 24) with 16777216. change (2 ^ 16) with 65536. change (2 ^ 8) with 256.
    Z.to_euclidean_division_equations. lia.
  - change (2 ^ 24) with 16777216. change (2 ^ 16) with 65536. change (2 ^ 8) with 256.
    change (2 ^ 64) with 18446744073709551616.
    change (2 ^ 32) with 4294967296 in Hn.
    Z.to_euclidean_division_equations. lia.
Qed.

Lemma frame_read (payload tail : list Byte.byte) :
  sendable payload ->
  ReadMessage (frame payload ++ tail)
  = Returned (mkRead (Some (decoded payload)) (Some tail) false None).
Proof.
  intros [Hne Hlen]. unfold frame. rewrite <- !app_assoc.
  rewrite ReadMessage_split;
    [|reflexivity|destruct payload; [congruence|discriminate]].
  unfold uint32. rewrite Z.mod_small by lia.
  rewrite length_field_roundtrip by lia. rewrite length_app.
  replace (Z.of_nat (length payload + length tail) <? Z.of_nat (length payload))
    with false by (symmetry; apply Z.ltb_ge; lia).
  rewrite Nat2Z.id, take_app_length, drop_app_length. reflexivity.
Qed.

(** The loop takes one call per frame. *)
Lemma message_loop_frames (payloads : list (list Byte.byte)) :
  Forall sendable payloads ->
  forall (tail : list Byte.byte) (acc : list Msg) (fuel : nat),
    message_loop (length payloads + fuel) (wire payloads ++ tail) acc
    = message_loop fuel tail (acc ++ map decoded payloads).
Proof.
  induction 1 as [|p ps Hp Hps IH]; intros tail acc fuel.
  - cbn. now rewrite app_nil_r.
  - cbn [length Nat.add message_loop wire map concat].
    fold (wire ps). rewrite <- app_assoc, (frame_read p _ Hp).
    cbn [done_ remaining msg]. rewrite IH. now rewrite <- app_assoc.
Qed.


Lemma read_buffer_all (chunks : list (list Byte.byte)) :
  Forall (fun b => b ≠ []) chunks -> read_buffer chunks = (concat chunks, []).
Proof.
  induction 1 as [|b bs Hb Hbs IH]; [reflexivity|].
  cbn [read_buffer concat]. rewrite IH.
  destruct b; [congruence|reflexivity].
Qed.

Lemma ReadMessages_on (chunks : list (list Byte.byte)) (w : list Byte.byte)
    (b : option string) (buff : list Byte.byte) (fuel : nat) (r : Received) :
  Forall (fun x => x ≠ []) chunks -> concat chunks = buff ->
  message_loop fuel buff [] = Some r ->
  ReadMessages (mkConn chunks w b) = (Some r, mkConn [] w b).
Proof.
  intros Hchunks Hcat Hrun. unfold ReadMessages. cbn [reads written broken].
  rewrite (read_buffer_all chunks Hchunks), Hcat.
  now rewrite (message_loop_from_bound _ _ _ _ Hrun).
Qed.




(** ** The connection *)

Lemma readMessages_on (self : Connection) (fuel : nat) (r : Received) :
  message_loop fuel (fst (read_buffer (reads (conn self)))) (pendingMessages self) = Some r ->
  readMessages self
  = (Some (rerr r),
     mkConnection (mkConn (snd (read_buffer (reads (conn self)))) (written (conn self))
                     (broken (conn self))) (msgs r)).
Proof.
  intros Hrun. unfold readMessages.
  destruct (read_buffer (reads (conn self))) as [buff rest]. cbn [fst snd] in *.
  now rewrite (message_loop_from_bound _ _ _ _ Hrun).
Qed.

(** X9.  [Read] on a connection with no pending message panics when the
    read brings eight bytes or fewer, nothing at all when the deadline
    passes among them: no message is queued and [pendingMessages[0]] is out
    of range. *)
Theorem Read_panics_when_nothing_arrives (self : Connection) :
  pendingMessages self = [] ->
  (length (fst (read_buffer (reads (conn self)))) <= 8)%nat ->
  Read self = Some (Panicked "index out of range").
Proof.
  intros Hpending Hshort. unfold Read. rewrite Hpending. cbn [length Nat.eqb].
  set (buff := fst (read_buffer (reads (conn self)))) in *.
  assert (message_loop 2 buff (pendingMessages self) = Some (mkReceived [] None)) as Hrun.
  { rewrite Hpending. cbn [message_loop].
    destruct (ReadMessage_cases buff)
      as [(-> & Hr)|[(Hl & Hr)|[(Hl & _)|[(Hl & _)|(Hl & _)]]]]; try lia;
      rewrite Hr; reflexivity. }
  rewrite (readMessages_on self 2 _ Hrun). reflexivity.
Qed.



(** X11.  What [WriteMessage] puts on a working connection is read back by
    [ReadMessages] as the message sent, provided the value encoding
    decodes to the message and is not empty nor longer than the length
    field can tell. *)
Theorem WriteMessage_ReadMessages_round_trip (c : NetConn) (m : Msg) :
  broken c = None ->
  written c = [] ->
  decoded (EncodeMsg (Type_ m) (Data m)) = m ->
  sendable (EncodeMsg (Type_ m) (Data m)) ->
  fst (WriteMessage c m) = None
  /\ ReadMessages (mkConn [written (snd (WriteMessage c m))] [] None)
     = (Some (mkReceived [m] None), mkConn [] [] None).
Proof.
  intros Hok Hfresh Hcodec Hsend. unfold WriteMessage, conn_Write. rewrite Hok, Hfresh.
  cbn [fst snd written app]. split; [reflexivity|].
  set (enc := EncodeMsg (Type_ m) (Data m)) in *.
  rewrite <- Hcodec.
  apply (ReadMessages_on [frame enc] [] None (wire [enc] ++ []) 2).
  - constructor; [discriminate|constructor].
  - cbn. now rewrite !app_nil_r.
  - etransitivity;
      [exact (message_loop_frames [enc] (Forall_cons_2 _ _ _ Hsend (Forall_nil_2 _)) [] [] 1)|].
    reflexivity.
Qed.

End Frames.

(** ** Message type names *)

Lemma String_named (mt : Z) (name : string) :
  msgTypeToString !! mt = Some name -> (mt, name) ∈ msgTypeToString_entries.
Proof. unfold msgTypeToString. apply elem_of_list_to_map_2. Qed.

(** X12.  [String] names a message type exactly when it is one of the
    declared constants other than [MsgStatusTy]: that constant has no entry
    in the table and, like every undeclared byte, yields the empty
    string. *)
Theorem MsgType_String_named_iff (mt : Z) :
  MsgType_String mt ≠ EmptyString <-> mt ∈ declared_types /\ mt ≠ MsgStatusTy.
Proof.
  unfold MsgType_String. split.
  - destruct (msgTypeToString !! mt) as [name|] eqn:Hlook; [|congruence].
    intros _. apply String_named in Hlook.
    unfold msgTypeToString_entries in Hlook.
    repeat (apply elem_of_cons in Hlook as [[= -> ->]|Hlook];
            [split; [unfold declared_types; set_solver | discriminate]|]).
    now apply elem_of_nil in Hlook.
  - intros [Hin Hne]. unfold declared_types in Hin.
    repeat (apply elem_of_cons in Hin as [->|Hin]; [try congruence; vm_compute; discriminate|]).
    now apply elem_of_nil in Hin.
Qed.

(** X13.  No two message types share a name: two types with the same
    non-empty name are the same type. *)
Theorem MsgType_String_injective (a b : Z) :
  MsgType_String a = MsgType_String b ->
  MsgType_String a ≠ EmptyString ->
  a = b.
Proof.
  unfold MsgType_String.
  destruct (msgTypeToString !! a) as [na|] eqn:Ha; [|congruence].
  destruct (msgTypeToString !! b) as [nb|] eqn:Hb; [|congruence].
  intros -> _. apply String_named in Ha, Hb.
  apply list_elem_of_In in Ha, Hb.
  unfold msgTypeToString_entries in Ha, Hb. cbn [In] in Ha, Hb.
  repeat destruct Ha as [Ha|Ha]; try contradiction;
    repeat destruct Hb as [Hb|Hb]; try contradiction; congruence.
Qed.

End EthwireStream.

(* ===================================================================== *)
(** * Properties of the list container *)
(* ===================================================================== *)

Module EthutilProps.
Import Ethwire.

Section ListProps.
Context {Elem Ty : Type} (type_of : Elem -> Ty) (assignable : Ty -> Ty -> bool).

Abbreviation List := (@Ethutil.List Elem Ty).
Abbreviation Get := (@Ethutil.Get Elem Ty).
Abbreviation Append := (Ethutil.Append type_of assignable).

(** X14.  [Get] returns the element at an index inside the slice and [nil]
    at an index at or past its end, but panics on a negative index: the
    guard [Len() > i] lets every negative index through to [Index]. *)
Theorem Get_by_index (self : List) (i : Z) :
  (i < 0 -> Get self i = Panicked "reflect: slice index out of range")
  /\ (0 <= i < Z.of_nat (length (Ethutil.list self)) ->
      exists x : Elem,
        Ethutil.list self !! Z.to_nat i = Some x /\ Get self i = Returned (Some x))
  /\ (Z.of_nat (length (Ethutil.list self)) <= i -> Get self i = Returned None).
Proof.
  unfold Ethutil.Get. split; [|split].
  - intros Hneg.
    replace (i <? Z.of_nat (length (Ethutil.list self))) with true
      by (symmetry; apply Z.ltb_lt; lia).
    now replace (i <? 0) with true by (symmetry; apply Z.ltb_lt; lia).
  - intros [Hlo Hhi].
    replace (i <? Z.of_nat (length (Ethutil.list self))) with true
      by (symmetry; apply Z.ltb_lt; lia).
    replace (i <? 0) with false by (symmetry; apply Z.ltb_ge; lia).
    destruct (lookup_lt_is_Some_2 (Ethutil.list self) (Z.to_nat i)) as [x Hx]; [lia|].
    exists x. now rewrite Hx.
  - intros Hge.
    now replace (i <? Z.of_nat (length (Ethutil.list self))) with false
      by (symmetry; apply Z.ltb_ge; lia).
Qed.

(** X15.  A successful [Append] puts the value at the old end of the slice,
    leaves every earlier index as it was, and sets [Length] to the new
    number of elements whatever [Length] held before. *)
Theorem Append_then_Get (self self' : List) (v : Elem) :
  Append self v = Returned self' ->
  Get self' (Z.of_nat (length (Ethutil.list self))) = Returned (Some v)
  /\ (forall i : Z, 0 <= i < Z.of_nat (length (Ethutil.list self)) ->
       Get self' i = Get self i)
  /\ Ethutil.Length self' = Z.of_nat (length (Ethutil.list self)) + 1
  /\ Ethutil.Length self' = Z.of_nat (length (Ethutil.list self')).
Proof.
  unfold Ethutil.Append.
  destruct (assignable (type_of v) (Ethutil.elem_ty self)); [|discriminate].
  intros [= <-]. cbn [Ethutil.list Ethutil.Length].
  split; [|split; [|split]].
  - unfold Ethutil.Get. cbn [Ethutil.list]. rewrite length_app. cbn [length].
    replace (Z.of_nat (length (Ethutil.list self))
             <? Z.of_nat (length (Ethutil.list self) + 1)) with true
      by (symmetry; apply Z.ltb_lt; lia).
    replace (Z.of_nat (length (Ethutil.list self)) <? 0) with false
      by (symmetry; apply Z.ltb_ge; lia).
    rewrite Nat2Z.id, lookup_app_r by lia. now rewrite Nat.sub_diag.
  - intros i [Hlo Hhi]. unfold Ethutil.Get. cbn [Ethutil.list].
    rewrite length_app. cbn [length].
    replace (i <? Z.of_nat (length (Ethutil.list self) + 1)) with true
      by (symmetry; apply Z.ltb_lt; lia).
    replace (i <? Z.of_nat (length (Ethutil.list self))) with true
      by (symmetry; apply Z.ltb_lt; lia).
    destruct (i <? 0); [reflexivity|].
    rewrite lookup_app_l by lia. reflexivity.
  - rewrite length_app. cbn [length]. lia.
  - reflexivity.
Qed.

End ListProps.
End EthutilProps.

(* ===================================================================== *)
(** * The ledger after a transition *)
(* ===================================================================== *)

Module EthchainLedger.
Import Ethchain.
Import EthchainProps.

Section Outcome.
Context `{GasSchedule} `{AddressScheme} `{ScriptEngine} `{ContractFactory}.
Variables (coinbase : string) (tx : Transaction.t) (st : State.t) (blk : Block).

Abbreviation result := (apply coinbase tx st blk).
Abbreviation before a := (State.GetAccount st a).
Abbreviation after a := (State.GetAccount (state (snd result)) a).

(** X16.  The transition succeeds exactly when the nonce matches, the
    sender covers the gas and then the value, the gas bought covers the
    base and data charges, and, for a creation, the contract object is made
    and the engine reports no error. *)
Theorem success_iff : fst result = inr tt <-> all_checks_pass coinbase tx st blk.
Proof.
  unfold all_checks_pass. rewrite apply_symbolic. unfold symbolic_run.
  fold (sender0 tx st).
  destruct (Z.eqb_spec (StateObject.Nonce (sender0 tx st)) (Transaction.Nonce tx))
    as [Hn|Hn]; cbn [negb]; [|split; [discriminate|intros (? & _); congruence]].
  destruct (Z.ltb_spec (StateObject.Amount (sender0 tx st)) (Transaction.GasValue tx));
    [split; [discriminate|intros (_ & ? & _); lia]|].
  destruct (Z.ltb_spec (Transaction.Gas tx) GasTx);
    [split; [discriminate|intros (_ & _ & ? & _); lia]|].
  destruct (Z.ltb_spec (Transaction.Gas tx - GasTx) (dataPrice tx));
    [split; [discriminate|intros (_ & _ & _ & ? & _); lia]|].
  rewrite sender2_Amount.
  destruct (Transaction.CreatesContract tx) eqn:Hc; cbn [andb].
  - destruct (rejected tx (ledger1 coinbase tx st)) eqn:Hrej.
    { split; [discriminate|]. intros (_ & _ & _ & _ & _ & Hmk).
      destruct (Hmk eq_refl); discriminate. }
    destruct (Z.ltb_spec (StateObject.Amount (sender0 tx st) - Transaction.GasValue tx)
                (Transaction.Value tx));
      [split; [discriminate|intros (_ & _ & _ & _ & ? & _); lia]|].
    destruct (snd (init_run coinbase tx st blk)) as [cause|] eqn:Hrun.
    { split; [discriminate|]. intros (_ & _ & _ & _ & _ & Hmk).
      destruct (Hmk eq_refl); discriminate. }
    split; [|reflexivity]. intros _. repeat split; auto; lia.
  - destruct (Z.ltb_spec (StateObject.Amount (sender0 tx st) - Transaction.GasValue tx)
                (Transaction.Value tx));
      [split; [discriminate|intros (_ & _ & _ & _ & ? & _); lia]|].
    split; [|reflexivity]. intros _. repeat split; auto; try lia; discriminate.
Qed.

Lemma success_nonce :
  fst result = inr tt ->
  Transaction.Nonce tx = StateObject.Nonce (before (Transaction.Sender tx)).
Proof.
  rewrite apply_symbolic. unfold symbolic_run. fold (sender0 tx st).
  destruct (Z.eqb_spec (StateObject.Nonce (sender0 tx st)) (Transaction.Nonce tx))
    as [Hn|Hn]; cbn [negb]; [|discriminate].
  intros _. symmetry. exact Hn.
Qed.

(** The ledger a successful run leaves. *)
Lemma success_state :
  fst result = inr tt ->
  state (snd result)
  = State.UpdateStateObject (committed_receiver coinbase tx st blk)
      (State.UpdateStateObject (sender3 tx st) (ledger2 coinbase tx st)).
Proof.
  rewrite apply_symbolic. unfold symbolic_run, committed_receiver, ledger2.
  repeat match goal with
         | |- context [if ?b then _ else _] => destruct b eqn:?
         | |- context [match snd ?r with _ => _ end] => destruct (snd r) eqn:?
         end; cbn [fst snd state]; intros [=]; reflexivity.
Qed.

Lemma committed_receiver_address :
  StateObject.address (committed_receiver coinbase tx st blk) = receiver_address tx.
Proof.
  unfold committed_receiver.
  destruct (Transaction.CreatesContract tx) eqn:Hc;
    cbn [StateObject.SetScript StateObject.address]; apply receiver1_address.
Qed.


Lemma after_sender_distinct :
  fst result = inr tt ->
  receiver_address tx ≠ Transaction.Sender tx ->
  after (Transaction.Sender tx) = sender3 tx st.
Proof.
  intros Hok Hne. rewrite (success_state Hok).
  rewrite GetAccount_update_ne by now rewrite committed_receiver_address.
  rewrite <- (sender3_address tx st) at 1. apply GetAccount_update_eq.
Qed.

Lemma after_receiver :
  fst result = inr tt ->
  after (receiver_address tx) = committed_receiver coinbase tx st blk.
Proof.
  intros Hok. rewrite (success_state Hok).
  rewrite <- committed_receiver_address at 1. apply GetAccount_update_eq.
Qed.

Lemma after_proposer_distinct :
  fst result = inr tt ->
  receiver_address tx ≠ coinbase -> Transaction.Sender tx ≠ coinbase ->
  after coinbase = proposer1 coinbase tx st.
Proof.
  intros Hok Hr Hs. rewrite (success_state Hok).
  rewrite GetAccount_update_ne by now rewrite committed_receiver_address.
  rewrite GetAccount_update_ne by now rewrite sender3_address.
  unfold State.GetAccount. rewrite ledger2_trie, ledger1_trie, lookup_insert_eq.
  rewrite <- (proposer1_address coinbase tx st) at 1. apply SetAddress_id.
Qed.

(** X18.  A successful payment between three different accounts moves the
    value from the sender to the recipient and the fee from the sender to
    the proposer: the three balances change by exactly these amounts and
    their sum is the same before and after. *)
Theorem payment_conserves_value :
  fst result = inr tt ->
  Transaction.CreatesContract tx = false ->
  Transaction.Sender tx ≠ coinbase ->
  Transaction.Recipient tx ≠ coinbase ->
  Transaction.Recipient tx ≠ Transaction.Sender tx ->
  StateObject.Amount (after (Transaction.Sender tx))
  = StateObject.Amount (before (Transaction.Sender tx))
    - Transaction.GasValue tx - Transaction.Value tx
  /\ StateObject.Amount (after (Transaction.Recipient tx))
     = StateObject.Amount (before (Transaction.Recipient tx)) + Transaction.Value tx
  /\ StateObject.Amount (after coinbase)
     = StateObject.Amount (before coinbase) + Transaction.GasValue tx
  /\ StateObject.Amount (after (Transaction.Sender tx))
     + StateObject.Amount (after (Transaction.Recipient tx))
     + StateObject.Amount (after coinbase)
     = StateObject.Amount (before (Transaction.Sender tx))
       + StateObject.Amount (before (Transaction.Recipient tx))
       + StateObject.Amount (before coinbase).
Proof.
  intros Hok Hc Hs Hr Hrs.
  assert (receiver_address tx = Transaction.Recipient tx) as Haddr
    by (unfold receiver_address; now rewrite Hc).
  assert (after (Transaction.Sender tx) = sender3 tx st) as Hsen
    by (apply after_sender_distinct; [exact Hok | now rewrite Haddr]).
  assert (after coinbase = proposer1 coinbase tx st) as Hcb
    by (apply after_proposer_distinct; [exact Hok | now rewrite Haddr | exact Hs]).
  assert (after (Transaction.Recipient tx)
          = StateObject.AddAmount (Transaction.Value tx)
              (before (Transaction.Recipient tx))) as Hrec.
  { rewrite <- Haddr at 1. rewrite (after_receiver Hok).
    unfold committed_receiver, receiver1, receiver0. rewrite Hc. f_equal.
    apply GetAccount_update_ne. now rewrite proposer1_address. }
  rewrite Hsen, Hcb, Hrec. rewrite sender3_Amount.
  unfold proposer1, sender0, Transaction.GasValue.
  cbn [StateObject.AddAmount StateObject.SetAmount StateObject.Amount].
  repeat split; lia.
Qed.

(** X19.  When the recipient of a payment is the block's proposer, its
    account is fetched after the fee credit has been written: a successful
    transition leaves it with the fee and the value both added. *)
Theorem proposer_as_recipient_gets_fee_and_value :
  fst result = inr tt ->
  Transaction.CreatesContract tx = false ->
  Transaction.Recipient tx = coinbase ->
  StateObject.Amount (after coinbase)
  = StateObject.Amount (before coinbase) + Transaction.GasValue tx + Transaction.Value tx.
Proof.
  intros Hok Hc Hrc.
  assert (receiver_address tx = coinbase) as Haddr
    by (unfold receiver_address; now rewrite Hc).
  replace (after coinbase) with (after (receiver_address tx)) by now rewrite Haddr.
  rewrite (after_receiver Hok).
  unfold committed_receiver, receiver1, receiver0. rewrite Hc, Hrc.
  rewrite <- (proposer1_address coinbase tx st) at 2.
  unfold ledger1. rewrite GetAccount_update_eq.
  unfold proposer1, Transaction.GasValue.
  cbn [StateObject.AddAmount StateObject.SetAmount StateObject.Amount]. lia.
Qed.

(** X20.  When the recipient of a payment is its sender (and not the
    proposer), the receiver object, fetched on its own, is written over the
    sender's entry: after a successful transition the stored account has
    the value added to its balance and its nonce is the one it had, so the
    same transaction passes the nonce check again. *)
Theorem self_payment_overwrites_sender :
  fst result = inr tt ->
  Transaction.CreatesContract tx = false ->
  Transaction.Recipient tx = Transaction.Sender tx ->
  Transaction.Sender tx ≠ coinbase ->
  StateObject.Amount (after (Transaction.Sender tx))
  = StateObject.Amount (before (Transaction.Sender tx)) + Transaction.Value tx
  /\ StateObject.Nonce (after (Transaction.Sender tx))
     = StateObject.Nonce (before (Transaction.Sender tx))
  /\ Transaction.Nonce tx = StateObject.Nonce (after (Transaction.Sender tx)).
Proof.
  intros Hok Hc Hrs Hs.
  assert (receiver_address tx = Transaction.Sender tx) as Haddr
    by (unfold receiver_address; now rewrite Hc).
  assert (after (Transaction.Sender tx)
          = StateObject.AddAmount (Transaction.Value tx) (before (Transaction.Sender tx)))
    as Hafter.
  { rewrite <- Haddr at 1. rewrite (after_receiver Hok).
    unfold committed_receiver, receiver1, receiver0. rewrite Hc, Hrs. f_equal.
    apply GetAccount_update_ne. now rewrite proposer1_address. }
  rewrite Hafter. cbn [StateObject.AddAmount StateObject.SetAmount StateObject.Amount
    StateObject.Nonce].
  split; [reflexivity|]. split; [reflexivity|].
  exact (success_nonce Hok).
Qed.

(** X21.  A successful transition stores the sender with its nonce advanced
    by one modulo 2^64 (when the receiver is another account): from the
    largest nonce the stored nonce wraps around to zero. *)
Theorem success_advances_nonce_modulo :
  fst result = inr tt ->
  receiver_address tx ≠ Transaction.Sender tx ->
  StateObject.Nonce (after (Transaction.Sender tx))
  = (StateObject.Nonce (before (Transaction.Sender tx)) + 1) mod 2 ^ 64
  /\ (StateObject.Nonce (before (Transaction.Sender tx)) = 2 ^ 64 - 1 ->
      StateObject.Nonce (after (Transaction.Sender tx)) = 0).
Proof.
  intros Hok Hne. rewrite (after_sender_distinct Hok Hne).
  assert (StateObject.Nonce (sender3 tx st)
          = (StateObject.Nonce (before (Transaction.Sender tx)) + 1) mod 2 ^ 64) as Hn
    by reflexivity.
  split; [exact Hn|]. intros Hmax. rewrite Hn, Hmax. reflexivity.
Qed.

Lemma failure_trie (e : TransitionError) :
  fst result = inl e ->
  State.trie (state (snd result)) = State.trie st
  \/ State.trie (state (snd result))
     = <[coinbase := proposer1 coinbase tx st]> (State.trie st).
Proof.
  rewrite apply_symbolic. unfold symbolic_run.
  repeat match goal with
         | |- context [if ?b then _ else _] => destruct b eqn:?
         | |- context [match snd ?r with _ => _ end] => destruct (snd r) eqn:?
         end; cbn [fst snd state]; intros [= <-];
    rewrite ?ledger2_trie, ?ledger1_trie; auto.
Qed.

(** X22.  A failed transition advances no stored nonce and changes no
    stored code: every account is stored as before, except that the
    proposer's balance may have received the fee.  In particular the
    sender's stored nonce still matches a transaction that failed after the
    nonce check. *)
Theorem failure_keeps_nonces (e : TransitionError) :
  fst result = inl e ->
  forall a : string,
    (after a = before a
     \/ (a = coinbase
         /\ after a
            = StateObject.AddAmount (Transaction.Gas tx * Transaction.GasPrice tx)
                (before a)))
    /\ StateObject.Nonce (after a) = StateObject.Nonce (before a)
    /\ StateObject.script (after a) = StateObject.script (before a).
Proof.
  intros Hfail a.
  assert (after a = before a
          \/ (a = coinbase
              /\ after a
                 = StateObject.AddAmount (Transaction.Gas tx * Transaction.GasPrice tx)
                     (before a))) as Hcases.
  { destruct (failure_trie e Hfail) as [Htrie|Htrie].
    - left. apply GetAccount_ext. now rewrite Htrie.
    - destruct (decide (a = coinbase)) as [->|Hne].
      + right. split; [reflexivity|].
        unfold State.GetAccount at 1. rewrite Htrie, lookup_insert_eq.
        rewrite <- (proposer1_address coinbase tx st) at 1. apply SetAddress_id.
      + left. apply GetAccount_ext. rewrite Htrie. now rewrite lookup_insert_ne. }
  split; [exact Hcases|].
  destruct Hcases as [->|[_ ->]]; split; reflexivity.
Qed.

End Outcome.

(** ** The session's caches and the gas counter *)
Section Session.
Context `{GasSchedule} `{AddressScheme} `{ScriptEngine} `{ContractFactory}.

(** X23.  [Sender()] and [Coinbase()] fetch their account once: whatever is
    written to the ledger afterwards, the next call returns the object
    fetched the first time and leaves the session as it is. *)
Theorem cached_accounts_are_not_refetched (self : StateTransition) (later : State.t) :
  (exists o : StateObject.t,
     fst (Sender self) = inr o
     /\ Sender (set_state later (snd (Sender self)))
        = (inr o, set_state later (snd (Sender self))))
  /\ (exists o : StateObject.t,
       fst (Coinbase self) = inr o
       /\ Coinbase (set_state later (snd (Coinbase self)))
          = (inr o, set_state later (snd (Coinbase self)))).
Proof.
  split.
  - unfold Sender. destruct (sen self) as [o|] eqn:Hsen.
    + exists o. split; [reflexivity|]. cbn. now rewrite Hsen.
    + eexists. split; [reflexivity|]. reflexivity.
  - unfold Coinbase. destruct (cb self) as [o|] eqn:Hcb.
    + exists o. split; [reflexivity|]. cbn. now rewrite Hcb.
    + eexists. split; [reflexivity|]. reflexivity.
Qed.

(** X24.  Two charges in a row succeed exactly when one charge of their sum
    would, and then leave the same session; the second amount must not be
    negative. *)
Theorem UseGas_twice (self : StateTransition) (a b : Z) :
  0 <= b ->
  fst (bind (UseGas a) (fun _ => UseGas b) self) = fst (UseGas (a + b) self)
  /\ (a + b <= gas self ->
      bind (UseGas a) (fun _ => UseGas b) self = UseGas (a + b) self).
Proof.
  intros Hb. unfold bind, UseGas, OutOfGasError.
  destruct (Z.ltb_spec (gas self) a) as [Ha|Ha];
    destruct (Z.ltb_spec (gas self) (a + b)) as [Hab|Hab]; cbn [gas set_gas]; try lia.
  - split; [reflexivity|lia].
  - destruct (Z.ltb_spec (gas self - a) b); [|lia]. split; [reflexivity|lia].
  - destruct (Z.ltb_spec (gas self - a) b); [lia|].
    assert (gas self - a - b = gas self - (a + b)) as -> by lia.
    split; [reflexivity|]. intros _. reflexivity.
Qed.

End Session.
End EthchainLedger.

(* ===================================================================== *)
(** * The reader, container and ledger theorems at the sample inputs *)
(* ===================================================================== *)

Module Samples.
Import Ethwire Ethchain.

(** ** The reader and the connection *)


Lemma ReadMessage_header_only_invalid_witness :
  @ReadMessage raw_codec (MagicToken ++ [Byte.x00; Byte.x00; Byte.x00; Byte.x00])
  = Returned (mkRead None None false (Some "Invalid message"%string)).
Proof.
  refine (proj1 (@EthwireStream.ReadMessage_header_only_invalid raw_codec
                   (MagicToken ++ [Byte.x00; Byte.x00; Byte.x00; Byte.x00]) _)).
  unfold MagicToken. cbn. lia.
Defined.

Lemma ReadMessage_progress_witness :
  (length (@nil Byte.byte) < length (frame tx_payload))%nat.
Proof.
  apply (@EthwireStream.ReadMessage_progress raw_codec (frame tx_payload)
           (mkRead (Some (@mkMsg raw_codec 18 [Byte.x01])) (Some []) false None)).
  - vm_compute. reflexivity.
  - reflexivity.
Defined.






Lemma Read_panics_when_nothing_arrives_witness :
  @Read raw_codec (New (mkConn [] [] None)) = Some (Panicked "index out of range").
Proof.
  apply (@EthwireStream.Read_panics_when_nothing_arrives raw_codec).
  - reflexivity.
  - cbn. lia.
Defined.


Lemma WriteMessage_ReadMessages_round_trip_witness :
  fst (@WriteMessage raw_codec raw_encoder (mkConn [] [] None)
         (@mkMsg raw_codec 18 [Byte.x01])) = None
  /\ @ReadMessages raw_codec
       (mkConn [written (snd (@WriteMessage raw_codec raw_encoder (mkConn [] [] None)
                                (@mkMsg raw_codec 18 [Byte.x01])))] [] None)
     = (Some (mkReceived [@mkMsg raw_codec 18 [Byte.x01]] None), mkConn [] [] None).
Proof.
  apply (@EthwireStream.WriteMessage_ReadMessages_round_trip raw_codec raw_encoder).
  - reflexivity.
  - reflexivity.
  - vm_compute. reflexivity.
  - split; [discriminate|vm_compute; reflexivity].
Defined.

Lemma MsgType_String_injective_witness : MsgPingTy = MsgPingTy.
Proof.
  apply EthwireStream.MsgType_String_injective.
  - reflexivity.
  - vm_compute. discriminate.
Defined.

(** ** The list container *)

Lemma Append_then_Get_witness :
  Ethutil.Get (Ethutil.mkList tt [1; 2; 3] 3) 2 = Returned (Some 3).
Proof.
  apply (EthutilProps.Append_then_Get (fun _ : Z => tt) (fun _ _ : unit => true)
           Ethutil.sample_list (Ethutil.mkList tt [1; 2; 3] 3) 3).
  reflexivity.
Defined.

(** ** The ledger after a transition *)

Abbreviation at_sample thm :=
  (thm sample_schedule sample_scheme sample_engine sample_factory).

Lemma payment_succeeds : fst (run "miner" tx_pay sample_ledger) = inr tt.
Proof. reflexivity. Defined.


Lemma payment_conserves_value_witness :
  StateObject.Amount (State.GetAccount (state (snd (run "miner" tx_pay sample_ledger))) "alice")
  = 85
  /\ StateObject.Amount (State.GetAccount (state (snd (run "miner" tx_pay sample_ledger))) "carol")
     = 10
  /\ StateObject.Amount (State.GetAccount (state (snd (run "miner" tx_pay sample_ledger))) "miner")
     = 5.
Proof.
  destruct (at_sample (@EthchainLedger.payment_conserves_value)
              "miner" tx_pay sample_ledger sample_block payment_succeeds)
    as (Hs & Hr & Hc & _); try reflexivity; try (vm_compute; discriminate).
  split; [exact Hs|]. split; [exact Hr|exact Hc].
Defined.

Lemma proposer_as_recipient_gets_fee_and_value_witness :
  StateObject.Amount (State.GetAccount (state (snd (run "carol" tx_pay sample_ledger))) "carol")
  = 15.
Proof.
  apply (at_sample (@EthchainLedger.proposer_as_recipient_gets_fee_and_value)
           "carol" tx_pay sample_ledger sample_block); reflexivity.
Defined.

Lemma self_payment_overwrites_sender_witness :
  StateObject.Amount (State.GetAccount (state (snd (run "miner" tx_self sample_ledger))) "alice")
  = 110
  /\ StateObject.Nonce (State.GetAccount (state (snd (run "miner" tx_self sample_ledger))) "alice")
     = 0
  /\ Transaction.Nonce tx_self
     = StateObject.Nonce
         (State.GetAccount (state (snd (run "miner" tx_self sample_ledger))) "alice").
Proof.
  apply (at_sample (@EthchainLedger.self_payment_overwrites_sender)
           "miner" tx_self sample_ledger sample_block); try reflexivity.
  vm_compute. discriminate.
Defined.

(** From the largest nonce the stored nonce wraps to zero. *)
Lemma success_advances_nonce_modulo_witness :
  StateObject.Nonce
    (State.GetAccount (state (snd (run "miner" tx_last_nonce last_nonce_ledger))) "alice")
  = 0.
Proof.
  apply (at_sample (@EthchainLedger.success_advances_nonce_modulo)
           "miner" tx_last_nonce last_nonce_ledger sample_block).
  - reflexivity.
  - vm_compute. discriminate.
  - reflexivity.
Defined.

Lemma failure_keeps_nonces_witness :
  StateObject.Nonce
    (State.GetAccount (state (snd (run "miner" tx_overdraw sample_ledger))) "alice")
  = StateObject.Nonce (State.GetAccount sample_ledger "alice").
Proof.
  apply (at_sample (@EthchainLedger.failure_keeps_nonces)
           "miner" tx_overdraw sample_ledger sample_block
           (InsufficientValueFunds 1000 95)).
  reflexivity.
Defined.

Lemma UseGas_twice_witness :
  bind (UseGas 3) (fun _ => UseGas 4)
    (set_gas 10 (NewStateTransition "miner" tx_pay sample_ledger sample_block))
  = UseGas 7 (set_gas 10 (NewStateTransition "miner" tx_pay sample_ledger sample_block)).
Proof.
  apply (EthchainLedger.UseGas_twice
           (set_gas 10 (NewStateTransition "miner" tx_pay sample_ledger sample_block)) 3 4).
  - lia.
  - cbn. lia.
Defined.

End Samples.
